(** * Ecommerce API: checkout, catalog query and seeding (src/main.py)

    A shallow embedding of the request handlers of [main.py] and the
    properties of its specification.

    - Python [float] is IEEE 754 binary64: Rocq's primitive floats, whose
      operations are the same correctly rounded binary64 operations.
    - Python [int] is unbounded: [Z].
    - A raised exception is a value of [exn]; a handler is a function from
      the process-wide store handle [db] to a result and the handle
      afterwards. *)

From Stdlib Require Import ZArith QArith String Ascii List Bool Lia.
From Stdlib Require Import PrimFloat SpecFloat FloatOps FloatAxioms.
From stdpp Require Import base option strings gmap.
Import ListNotations.

Set Warnings "-inexact-float".
Local Open Scope Z_scope.

(** ** Python floating point *)

Module PyFloat.

(** [float(n)] for an [int] n, also the implicit conversion in
    [x * n]: the nearest double, ties to even; [None] is
    [OverflowError: int too large to convert to float]. *)
Definition of_int (n : Z) : option float :=
  let y := SF2Prim (binary_normalize prec emax n 0 false) in
  if is_finite y then Some y else None.

(** [x * n] with [x] a float and [n] an int. *)
Definition mul_int (x : float) (n : Z) : option float :=
  match of_int n with
  | Some y => Some (PrimFloat.mul x y)
  | None => None
  end.

(** The integer nearest to [num / den], ties to even ([0 < den]). *)
Definition div_half_even (num den : Z) : Z :=
  let q := num / den in
  let r := num mod den in
  match 2 * r ?= den with
  | Lt => q
  | Gt => q + 1
  | Eq => if Z.even q then q else q + 1
  end.

(** The integer nearest to [m * 2^e * 10^ndigits], ties to even. *)
Definition scaled_half_even (m : positive) (e : Z) (ndigits : N) : Z :=
  let num := Z.pos m * 10 ^ Z.of_N ndigits in
  if 0 <=? e then num * 2 ^ e else div_half_even num (2 ^ (- e)).

(** [round(x, ndigits)] for [0 <= ndigits]: CPython prints [x] correctly
    rounded to [ndigits] decimals (on the exact binary value, ties to
    even) and reads the decimal string back as the nearest double.
    Non-finite values and zeros are returned unchanged, as is [x] when
    [ndigits] exceeds 323. *)
Definition round (x : float) (ndigits : N) : float :=
  if (323 <? ndigits)%N then x
  else
    match Prim2SF x with
    | S754_finite s m e =>
        match scaled_half_even m e ndigits with
        | Z.pos n =>
            SF2Prim (SFdiv prec emax (S754_finite s n 0)
                       (S754_finite false (Z.to_pos (10 ^ Z.of_N ndigits)) 0))
        | _ => SF2Prim (S754_zero s)
        end
    | _ => x
    end.

End PyFloat.

(** ** bson.ObjectId *)

Module bson.

(** An [ObjectId] is represented by [str(oid)], the lowercase
    hexadecimal rendering of its bytes. *)
Definition ObjectId := string.

(** [Py_ISSPACE]: space, tab, line feed, vertical tab, form feed,
    carriage return. *)
Definition is_space (c : ascii) : bool :=
  let n := N_of_ascii c in
  ((n =? 32) || ((9 <=? n) && (n <=? 13)))%N.

(** The lowercase form of a hexadecimal digit. *)
Definition hex_lower (c : ascii) : option ascii :=
  let n := N_of_ascii c in
  if ((48 <=? n) && (n <=? 57))%N then Some c
  else if ((97 <=? n) && (n <=? 102))%N then Some c
  else if ((65 <=? n) && (n <=? 70))%N then Some (ascii_of_N (n + 32))
  else None.

(** [bytes.fromhex(s)], rendered back in lowercase hexadecimal: two
    digits per byte, white space skipped between bytes; [None] is
    [ValueError]. *)
Fixpoint fromhex (s : string) : option string :=
  match s with
  | EmptyString => Some EmptyString
  | String c r =>
      if is_space c then fromhex r
      else
        match r with
        | String d r' =>
            match hex_lower c, hex_lower d, fromhex r' with
            | Some c', Some d', Some t => Some (String c' (String d' t))
            | _, _, _ => None
            end
        | EmptyString => None
        end
  end.

(** [ObjectId(s)] for a [str]: 24 characters accepted by
    [bytes.fromhex]; [None] is [InvalidId]. *)
Definition ObjectId_of (s : string) : option ObjectId :=
  if (String.length s =? 24)%nat then fromhex s else None.

(** [ObjectId.is_valid(s)]. *)
Definition is_valid (s : string) : bool :=
  if String.eqb s EmptyString then false
  else match ObjectId_of s with Some _ => true | None => false end.

(** [str(oid)]. *)
Definition str (oid : ObjectId) : string := oid.

Definition hex_digit (d : N) : ascii :=
  if (d <? 10)%N then ascii_of_N (48 + d) else ascii_of_N (87 + d).

Fixpoint to_hex (width : nat) (n : N) (acc : string) : string :=
  match width with
  | O => acc
  | S w => to_hex w (n / 16)%N (String (hex_digit (n mod 16)%N) acc)
  end.

(** The identifier the store assigns to its [n]-th inserted document:
    12 bytes, 24 hexadecimal digits. *)
Definition generate (n : N) : ObjectId := to_hex 24 n EmptyString.

End bson.

(** ** schemas *)

Module schemas.

(** Modelled from the spec: [schemas.OrderItem] is not in src. The spec's
    data model gives an order line the fields productId and quantity, with
    no price per line; construction performs no further validation. *)
Record OrderItem := {
  product_id : string;
  quantity : Z
}.

(** Modelled from the spec: [schemas.Order] is not in src. The spec's data
    model: three customer strings, unvalidated beyond presence, the
    ordered items, and the three amounts. *)
Record Order := {
  customer_name : string;
  customer_email : string;
  customer_address : string;
  items : list OrderItem;
  subtotal : float;
  tax : float;
  total : float
}.

End schemas.

(** ** The document store *)

(** A document of the [product] collection. A key of the document may be
    absent: [get_title d] is [d.get("title")]. Values that are present have
    the type the [Product] schema gives them. *)
Record ProductDoc := {
  _id : bson.ObjectId;
  get_title : option string;
  get_description : option string;
  get_price : option float;
  get_category : option string;
  get_image : option string;
  get_in_stock : option bool
}.

(** The store: the [product] and [order] collections in insertion order, and
    the number of identifiers handed out so far. *)
Record Store := {
  product : list ProductDoc;
  order : list (bson.ObjectId * schemas.Order);
  next_id : N
}.

(** Exceptions that leave a handler. *)
Inductive exn :=
| HTTPException (status_code : Z) (detail : string)
| TypeError      (* [db] is [None]: 'NoneType' object is not subscriptable *)
| OverflowError  (* int too large to convert to float *)
| ValidationError (* a response model rejects a missing required field *)
| OperationFailure (* the store rejects a query *)
| StorageError   (* the persistence layer is unavailable *)
| NotImplementedError. (* a database handle is tested for truth *)

(** A handler runs against the global handle [db], which is [None] when no
    database is configured, and returns a value or raises. *)
Definition M (A : Type) : Type := option Store -> (exn + A) * option Store.

Definition ret {A} (a : A) : M A := fun db => (inr a, db).
Definition raise {A} (e : exn) : M A := fun db => (inl e, db).
Definition bind {A B} (c : M A) (k : A -> M B) : M B :=
  fun db =>
    match c db with
    | (inr a, db') => k a db'
    | (inl e, db') => (inl e, db')
    end.
Definition lift {A} (r : exn + A) : M A := fun db => (r, db).

Notation "'let*' x ':=' c 'in' k" := (bind c (fun x => k))
  (at level 10, x pattern, c at level 100, k at level 200).

(** [db["product"]], [db["order"]]: subscripting [None] raises. *)
Definition with_db {A} (f : Store -> (exn + A) * Store) : M A :=
  fun db =>
    match db with
    | None => (inl TypeError, None)
    | Some st => let '(r, st') := f st in (r, Some st')
    end.

(** [list(db["product"].find({"_id": {"$in": ids}}))]. *)
Definition find_id_in (ids : list bson.ObjectId) : M (list ProductDoc) :=
  with_db (fun st =>
    (inr (List.filter (fun p => existsb (String.eqb (_id p)) ids) (product st)),
     st)).

(** [db["product"].count_documents({})]. *)
Definition count_documents (st : Store) : Z := Z.of_nat (length (product st)).

(** Modelled from the spec: [database.create_document] is not in src. Order
    persistence stores the order once under a store-assigned identifier and
    returns that identifier as a string; it fails with [StorageError] when
    the store is unavailable. *)
Definition create_document (o : schemas.Order) : M string :=
  fun db =>
    match db with
    | None => (inl StorageError, None)
    | Some st =>
        let oid := bson.generate (next_id st) in
        (inr (bson.str oid),
         Some {| product := product st;
                 order := order st ++ [(oid, o)];
                 next_id := (next_id st + 1)%N |})
    end.

(** ** main.py: checkout *)

Record CartItem := {
  product_id : string;
  quantity : Z
}.

Record CheckoutRequest := {
  customer_name : string;
  customer_email : string;
  customer_address : string;
  items : list CartItem
}.

Record CheckoutResponse := {
  order_id : string;
  total : float
}.

(** The two validation failures of [checkout]; the spec calls them
    InvalidInput and ProductNotFound. *)
Definition InvalidInput : exn := HTTPException 400 "Invalid product IDs".
Definition ProductNotFound (pid : string) : exn :=
  HTTPException 400 ("Product not found: " ++ pid).

(** [[ObjectId(i.product_id) for i in payload.items
      if ObjectId.is_valid(i.product_id)]] *)
Definition valid_ids (l : list CartItem) : list bson.ObjectId :=
  omap (fun i => bson.ObjectId_of (product_id i))
       (List.filter (fun i => bson.is_valid (product_id i)) l).

(** [float(p.get("price", 0))] *)
Definition price_of (p : ProductDoc) : float :=
  match get_price p with
  | Some x => x
  | None => 0%float
  end.

(** [{str(p["_id"]): float(p.get("price", 0)) for p in products}]: a later
    document replaces an earlier one under the same key. *)
Definition price_map_of (products : list ProductDoc) : gmap string float :=
  fold_left (fun m p => <[bson.str (_id p) := price_of p]> m) products ∅.

(** The loop over [payload.items], from the running [subtotal]. *)
Fixpoint accumulate (price_map : gmap string float) (l : list CartItem)
    (subtotal : float) : exn + float :=
  match l with
  | [] => inr subtotal
  | item :: rest =>
      let pid := product_id item in
      match price_map !! pid with
      | None => inl (ProductNotFound pid)
      | Some price =>
          match PyFloat.mul_int price (quantity item) with
          | None => inl OverflowError
          | Some line => accumulate price_map rest (subtotal + line)%float
          end
      end
  end.

Definition tax_rate : float := 0.08%float.

Definition checkout (payload : CheckoutRequest) : M CheckoutResponse :=
  let ids := valid_ids (items payload) in
  match ids with
  | [] => raise InvalidInput
  | _ :: _ =>
      let* products := find_id_in ids in
      let price_map := price_map_of products in
      let* subtotal := lift (accumulate price_map (items payload) 0%float) in
      let tax := PyFloat.round (subtotal * tax_rate)%float 2 in
      let total := PyFloat.round (subtotal + tax)%float 2 in
      let order :=
        {| schemas.customer_name := customer_name payload;
           schemas.customer_email := customer_email payload;
           schemas.customer_address := customer_address payload;
           schemas.items :=
             map (fun i => {| schemas.product_id := product_id i;
                              schemas.quantity := quantity i |})
                 (items payload);
           schemas.subtotal := PyFloat.round subtotal 2;
           schemas.tax := tax;
           schemas.total := total |} in
      let* order_id := create_document order in
      ret {| order_id := order_id; total := total |}
  end.

(** ** main.py: list_products *)

Record ProductOut := {
  id : string;
  title : string;
  description : option string;
  price : float;
  category : string;
  image : option string;
  in_stock : bool
}.

(** The filter document handed to the store: at most the keys
    ["category"] and ["title"], the latter holding [$regex] and
    [$options]. *)
Record Filter := {
  filt_category : option string;
  filt_title : option (string * string)
}.

(** [ProductOut(id=str(d.get("_id")), title=d.get("title"), ...)]: the
    response model requires [title] and [category] to be strings. *)
Definition ProductOut_of (d : ProductDoc) : exn + ProductOut :=
  match get_title d, get_category d with
  | Some t, Some c =>
      inr {| id := bson.str (_id d);
             title := t;
             description := get_description d;
             price := price_of d;
             category := c;
             image := get_image d;
             in_stock := default true (get_in_stock d) |}
  | _, _ => inl ValidationError
  end.

(** The loop [for d in docs: out.append(ProductOut(...))]. *)
Fixpoint build_out (docs : list ProductDoc) : exn + list ProductOut :=
  match docs with
  | [] => inr []
  | d :: rest =>
      match ProductOut_of d with
      | inl e => inl e
      | inr o =>
          match build_out rest with
          | inl e => inl e
          | inr out => inr (o :: out)
          end
      end
  end.

(** A query parameter is used only when it is truthy: present and not the
    empty string. *)
Definition truthy (s : option string) : option string :=
  match s with
  | Some c => if String.eqb c EmptyString then None else Some c
  | None => None
  end.

Definition default_limit : Z := 50.

Section Catalog.

(** The store's regular-expression operator: [regex pattern options] is
    the compiled matcher, searching its subject for a match anywhere, or
    the store's error for a pattern it rejects. *)
Variable regex : string -> string -> exn + (string -> bool).

(** Whether a document satisfies the filter, given the compiled title
    matcher: equality on ["category"], a regular-expression match on
    ["title"]; a document without the key does not match. *)
Definition doc_matches (cat : option string) (re : option (string -> bool))
    (d : ProductDoc) : bool :=
  match cat with
  | Some c =>
      match get_category d with
      | Some c' => String.eqb c' c
      | None => false
      end
  | None => true
  end
  &&
  match re with
  | Some m =>
      match get_title d with
      | Some t => m t
      | None => false
      end
  | None => true
  end.

(** Modelled from the spec: [database.get_documents] is not in src. It
    returns the documents of the [product] collection that satisfy the
    filter, in store order, at most [limit] of them. *)
Definition get_documents (filt : Filter) (limit : Z) : M (list ProductDoc) :=
  fun db =>
    match db with
    | None => (inl StorageError, None)
    | Some st =>
        let compiled :=
          match filt_title filt with
          | Some (pattern, options) =>
              match regex pattern options with
              | inl e => inl e
              | inr m => inr (Some m)
              end
          | None => inr None
          end in
        match compiled with
        | inl e => (inl e, db)
        | inr re =>
            (inr (take (Z.to_nat limit)
                    (List.filter (doc_matches (filt_category filt) re)
                       (product st))),
             db)
        end
    end.

(** [list_products(category, q, limit)]; an omitted [limit] is 50. *)
Definition list_products (category q : option string) (limit : option Z)
    : M (list ProductOut) :=
  let filt :=
    {| filt_category := truthy category;
       filt_title :=
         match truthy q with
         | Some pattern => Some (pattern, "i")
         | None => None
         end |} in
  let* docs := get_documents filt (default default_limit limit) in
  lift (build_out docs).

End Catalog.

(** ** main.py: seed_products *)

(** The response dictionary of [seed_products]. *)
Record SeedResponse := {
  seeded : bool;
  message : option string;
  count : option Z;
  inserted : option Z
}.

Definition sample_doc (t d : string) (p : float) (c img : string)
    (oid : bson.ObjectId) : ProductDoc :=
  {| _id := oid;
     get_title := Some t;
     get_description := Some d;
     get_price := Some p;
     get_category := Some c;
     get_image := Some img;
     get_in_stock := Some true |}.

Definition sample : list (bson.ObjectId -> ProductDoc) :=
  [ sample_doc "Wireless Headphones" "Noise-cancelling over-ear headphones"
      129.99%float "Electronics"
      "https://images.unsplash.com/photo-1518443155474-2d46acb2b3de?auto=format&fit=crop&w=800&q=60";
    sample_doc "Smart Watch" "Track fitness and notifications"
      199.0%float "Electronics"
      "https://images.unsplash.com/photo-1516570161787-2fd917215a3d?auto=format&fit=crop&w=800&q=60";
    sample_doc "Espresso Machine" "Barista-quality coffee at home"
      349.0%float "Home"
      "https://images.unsplash.com/photo-1470176519524-3cf9e6dccbad?auto=format&fit=crop&w=800&q=60";
    sample_doc "Running Shoes" "Lightweight and comfortable"
      89.99%float "Fashion"
      "https://images.unsplash.com/photo-1542291026-7eec264c27ff?auto=format&fit=crop&w=800&q=60";
    sample_doc "Backpack" "Durable everyday carry"
      59.99%float "Accessories"
      "https://images.unsplash.com/photo-1521093470119-a3acdc43374e?auto=format&fit=crop&w=800&q=60";
    sample_doc "Bluetooth Speaker" "Portable with deep bass"
      79.5%float "Electronics"
      "https://images.unsplash.com/photo-1512446816042-444d641267d4?auto=format&fit=crop&w=800&q=60" ].

(** [db["product"].insert_many(docs)]: every document receives the next
    identifier and is appended; the result is [inserted_ids]. *)
Fixpoint insert_many (docs : list (bson.ObjectId -> ProductDoc)) (st : Store)
    : list bson.ObjectId * Store :=
  match docs with
  | [] => ([], st)
  | mk :: rest =>
      let oid := bson.generate (next_id st) in
      let st1 := {| product := product st ++ [mk oid];
                    order := order st;
                    next_id := (next_id st + 1)%N |} in
      let '(oids, st2) := insert_many rest st1 in
      (oid :: oids, st2)
  end.

(** [bool(db)], the test of [if db]: [None] is false; a database handle
    does not implement truth-value testing and the test raises
    NotImplementedError. ([test_database] compares with [is not None]
    instead.) *)
Definition truth_value (db : option Store) : exn + bool :=
  match db with
  | None => inr false
  | Some _ => inl NotImplementedError
  end.

(** [seed_products] from the point where the test of [db] has come out as
    [cond]. *)
Definition seed_body (cond : bool) : M SeedResponse :=
  fun db =>
    let n :=
      match cond, db with
      | true, Some st => count_documents st
      | _, _ => 0
      end in
    if 0 <? n then
      (inr {| seeded := false;
              message := Some "Products already exist";
              count := Some n;
              inserted := None |}, db)
    else
      with_db (fun st =>
        let '(inserted_ids, st') := insert_many sample st in
        (inr {| seeded := true;
                message := None;
                count := None;
                inserted := Some (Z.of_nat (length inserted_ids)) |}, st')) db.

Definition seed_products : M SeedResponse :=
  fun db =>
    match truth_value db with
    | inl e => (inl e, db)
    | inr cond => seed_body cond db
    end.

(** ** main.py: test_database *)

(** What [test_database] uses of the handle [db]: its [name] attribute,
    when it has one, and [list_collection_names()], which returns the names
    or raises an exception with a message. *)
Record Database := {
  db_name : option string;
  list_collection_names : string + list string
}.

(** The response dictionary of [test_database]; [None] is Python's
    [None]. *)
Record TestResponse := {
  backend : string;
  database : string;
  database_url : option string;
  database_name : option string;
  connection_status : string;
  collections : list string
}.

(** [os.getenv(key)] used as a condition: set and not empty. *)
Definition env_set (getenv : string -> option string) (key : string) : bool :=
  match getenv key with
  | Some v => negb (String.eqb v EmptyString)
  | None => false
  end.

(** A byte that continues a character of UTF-8 text: [10xxxxxx]. *)
Definition is_continuation (c : ascii) : bool :=
  let n := N_of_ascii c in ((128 <=? n) && (n <? 192))%N.

(** The first [n] characters of UTF-8 text: a character is a leading byte
    with the continuation bytes that follow it. *)
Fixpoint take_chars (n : nat) (s : string) : string :=
  match s with
  | EmptyString => EmptyString
  | String c r =>
      if is_continuation c then String c (take_chars n r)
      else
        match n with
        | O => EmptyString
        | S n' => String c (take_chars n' r)
        end
  end.

(** [str(e)[:50]]: the first 50 characters of the message. *)
Definition message_head (msg : string) : string := take_chars 50 msg.

(** The assignments [response[key] = value]. *)
Definition set_database (v : string) (r : TestResponse) : TestResponse :=
  {| backend := backend r; database := v;
     database_url := database_url r; database_name := database_name r;
     connection_status := connection_status r;
     collections := collections r |}.

Definition set_database_url (v : string) (r : TestResponse) : TestResponse :=
  {| backend := backend r; database := database r;
     database_url := Some v; database_name := database_name r;
     connection_status := connection_status r;
     collections := collections r |}.

Definition set_database_name (v : string) (r : TestResponse) : TestResponse :=
  {| backend := backend r; database := database r;
     database_url := database_url r; database_name := Some v;
     connection_status := connection_status r;
     collections := collections r |}.

Definition set_connection_status (v : string) (r : TestResponse)
    : TestResponse :=
  {| backend := backend r; database := database r;
     database_url := database_url r; database_name := database_name r;
     connection_status := v;
     collections := collections r |}.

Definition set_collections (v : list string) (r : TestResponse)
    : TestResponse :=
  {| backend := backend r; database := database r;
     database_url := database_url r; database_name := database_name r;
     connection_status := connection_status r;
     collections := v |}.

Definition test_database (db : option Database)
    (getenv : string -> option string) : TestResponse :=
  let response :=
    {| backend := "✅ Running";
       database := "❌ Not Available";
       database_url := None;
       database_name := None;
       connection_status := "Not Connected";
       collections := [] |} in
  let response :=
    match db with
    | Some d =>
        let response := set_database "✅ Available" response in
        let response := set_database_url "✅ Configured" response in
        let response :=
          set_database_name
            (match db_name d with Some n => n | None => "✅ Connected" end)
            response in
        let response := set_connection_status "Connected" response in
        match list_collection_names d with
        | inr names =>
            let response := set_collections (take 10 names) response in
            set_database "✅ Connected & Working" response
        | inl msg =>
            set_database ("⚠️  Connected but Error: " ++ message_head msg)
              response
        end
    | None => set_database "⚠️  Available but not initialized" response
    end in
  let response :=
    set_database_url
      (if env_set getenv "DATABASE_URL" then "✅ Set" else "❌ Not Set")
      response in
  let response :=
    set_database_name
      (if env_set getenv "DATABASE_NAME" then "✅ Set" else "❌ Not Set")
      response in
  response.

(** ** Views of the store *)

(** What [checkout] reads of a product document: its identifier and its
    price. *)
Definition price_view (d : ProductDoc) : string * option float :=
  (_id d, get_price d).

(** A selected document that the response model rejects. *)
Definition unrenderable (d : ProductDoc) : Prop :=
  get_title d = None \/ get_category d = None.

(** ** A regular-expression engine for literal text and the wildcard *)

Module regex.

Inductive atom :=
| Lit (c : ascii)   (* a character that stands for itself *)
| Dot.              (* [.]: any character but a line feed *)

(** The characters with a special meaning in a pattern. *)
Definition metachar (c : ascii) : bool :=
  existsb (Ascii.eqb c) (list_ascii_of_string "\^$.[]|()?*+{}").

(** A pattern of the fragment: [.] and characters without a special
    meaning. [None] for any other pattern. *)
Fixpoint parse (pattern : string) : option (list atom) :=
  match pattern with
  | EmptyString => Some []
  | String c r =>
      match parse r with
      | Some p =>
          if Ascii.eqb c "." then Some (Dot :: p)
          else if metachar c then None
          else Some (Lit c :: p)
      | None => None
      end
  end.

(** ASCII case folding. *)
Definition lower (c : ascii) : ascii :=
  let n := N_of_ascii c in
  if ((65 <=? n) && (n <=? 90))%N then ascii_of_N (n + 32) else c.

Definition atom_matches (ci : bool) (a : atom) (c : ascii) : bool :=
  match a with
  | Lit x => if ci then Ascii.eqb (lower x) (lower c) else Ascii.eqb x c
  | Dot => negb (Ascii.eqb c "010")
  end.

(** The pattern matches a prefix of the subject. *)
Fixpoint match_here (ci : bool) (p : list atom) (t : string) : bool :=
  match p, t with
  | [], _ => true
  | a :: p', String c t' => atom_matches ci a c && match_here ci p' t'
  | _ :: _, EmptyString => false
  end.

(** The pattern matches somewhere in the subject. *)
Fixpoint search (ci : bool) (p : list atom) (t : string) : bool :=
  match_here ci p t
  || match t with
     | String _ t' => search ci p t'
     | EmptyString => false
     end.

(** Whether the option string asks for case-insensitive matching. *)
Definition has_i (options : string) : bool :=
  existsb (Ascii.eqb "i") (list_ascii_of_string options).

(** An engine that accepts the patterns of the fragment, where it agrees
    with the store's, and rejects every other pattern. *)
Definition fragment (pattern options : string) : exn + (string -> bool) :=
  match parse pattern with
  | Some p => inr (search (has_i options) p)
  | None => inl OperationFailure
  end.

End regex.

(** ** The properties of the specification, in its own words *)

(** [t] contains [q] as a substring, letter case ignored. *)
Definition lower_string (s : string) : string :=
  string_of_list_ascii (map regex.lower (list_ascii_of_string s)).

Definition contains_ci (q t : string) : Prop :=
  exists pre post : string,
    lower_string t = (pre ++ lower_string q ++ post)%string.

(** The pattern has no character with a special meaning. *)
Definition literal (q : string) : bool :=
  forallb (fun c => negb (regex.metachar c)) (list_ascii_of_string q).

(** The character [c] occurs in [s]. *)
Fixpoint occurs (c : ascii) (s : string) : bool :=
  match s with
  | EmptyString => false
  | String a r => Ascii.eqb c a || occurs c r
  end.

(** The selection of the catalog query: equality with a non-empty
    [category], a match of the compiled matcher [m] on the title for a
    non-empty [q]. *)
Definition selects (category q : option string) (m : string -> bool)
    (d : ProductDoc) : bool :=
  match category with
  | Some c =>
      if String.eqb c EmptyString then true
      else bool_decide (get_category d = Some c)
  | None => true
  end
  &&
  match q with
  | Some p =>
      if String.eqb p EmptyString then true
      else match get_title d with Some t => m t | None => false end
  | None => true
  end.

(** A response record carries the fields of the stored document, absent
    ones defaulted. *)
Definition renders (d : ProductDoc) (o : ProductOut) : Prop :=
  id o = _id d
  /\ get_title d = Some (title o)
  /\ description o = get_description d
  /\ price o = default 0%float (get_price d)
  /\ get_category d = Some (category o)
  /\ image o = get_image d
  /\ in_stock o = default true (get_in_stock d).

(** The identifiers of a store are those of 12-byte ObjectIds: 24
    lowercase hexadecimal digits. *)
Definition canonical (pid : string) : Prop :=
  bson.ObjectId_of pid = Some pid.

Definition store_ids_wf (st : Store) : Prop :=
  Forall (fun d => canonical (_id d)) (product st).

(** The catalog prices product [pid] at [p]: [pid] is the canonical
    identifier of a stored product, and the price of the documents stored
    under it, 0 when they have none, is [p]. *)
Definition priced (st : Store) (pid : string) (p : float) : Prop :=
  canonical pid
  /\ (exists d, In d (product st) /\ _id d = pid)
  /\ forall d, In d (product st) -> _id d = pid -> price_of d = p.

(** The price mapping that [checkout] resolves for a request. *)
Definition resolved (st : Store) (l : list CartItem) : gmap string float :=
  price_map_of
    (List.filter (fun p => existsb (String.eqb (_id p)) (valid_ids l))
       (product st)).

(** The quantity converts to a double. *)
Definition fits (q : Z) : Prop := is_Some (PyFloat.of_int q).

(** [x] is the line amount of item [i] under the price mapping: the double
    product of the unit price and the quantity. *)
Definition line_of (pm : gmap string float) (i : CartItem) (x : float)
    : Prop :=
  exists p y,
    pm !! product_id i = Some p
    /\ PyFloat.of_int (quantity i) = Some y
    /\ x = (p * y)%float.

(** The item passes the loop: its product is in the price mapping and its
    quantity converts. *)
Definition item_ok (pm : gmap string float) (i : CartItem) : Prop :=
  is_Some (pm !! product_id i) /\ fits (quantity i).

(** The line amounts summed in double precision, in request order, from
    [0.0]. *)
Definition float_sum (lines : list float) : float :=
  fold_left PrimFloat.add lines 0%float.

(** The order line of a cart item. *)
Definition order_item (i : CartItem) : schemas.OrderItem :=
  {| schemas.product_id := product_id i; schemas.quantity := quantity i |}.

(** The invariant of the data model on the stored amounts of an order,
    with Python's [==]. *)
Definition stored_invariant (o : schemas.Order) : bool :=
  PrimFloat.eqb (schemas.tax o)
    (PyFloat.round (schemas.subtotal o * tax_rate)%float 2)
  && PrimFloat.eqb (schemas.total o)
       (PyFloat.round (schemas.subtotal o + schemas.tax o)%float 2).

(** Exact arithmetic on the values that the doubles denote. *)
Module Exact.

(** The rational number a finite double denotes. *)
Definition to_Q (x : float) : option Q :=
  match Prim2SF x with
  | S754_zero _ => Some (inject_Z 0)
  | S754_finite s m e =>
      Some (Qmult (inject_Z (if s then Z.neg m else Z.pos m))
                  (Qpower (inject_Z 2) e))
  | _ => None
  end.

(** The sum over the items of unit price times quantity, without any
    rounding. *)
Fixpoint sum (pm : gmap string float) (l : list CartItem) : option Q :=
  match l with
  | [] => Some (inject_Z 0)
  | i :: rest =>
      match pm !! product_id i, sum pm rest with
      | Some p, Some s =>
          match to_Q p with
          | Some v => Some (Qplus (Qmult v (inject_Z (quantity i))) s)
          | None => None
          end
      | _, _ => None
      end
  end.

(** A rational amount rounded to whole cents, ties to even. *)
Definition cents (x : Q) : Z :=
  PyFloat.div_half_even (Qnum x * 100) (Z.pos (Qden x)).

(** The double nearest to a number of cents. *)
Definition of_cents (n : Z) : float :=
  match n with
  | Z0 => 0%float
  | Z.pos k =>
      SF2Prim (SFdiv prec emax (S754_finite false k 0)
                 (S754_finite false 100 0))
  | Z.neg k =>
      SF2Prim (SFdiv prec emax (S754_finite true k 0)
                 (S754_finite false 100 0))
  end.

(** The subtotal of the specification: the exact sum, rounded to two
    decimals once. *)
Definition subtotal (pm : gmap string float) (l : list CartItem)
    : option float :=
  match sum pm l with
  | Some s => Some (of_cents (cents s))
  | None => None
  end.

End Exact.

(** ** Sample stores and requests *)

Module Examples.

Definition idA : string := "64b000000000000000000a01".
Definition idB : string := "64b000000000000000000b02".
Definition idC : string := "64b000000000000000000c03".

Definition doc (i : string) (t : string) (p : option float) : ProductDoc :=
  {| _id := i;
     get_title := Some t;
     get_description := None;
     get_price := p;
     get_category := Some "Accessories";
     get_image := None;
     get_in_stock := None |}.

Definition store_of (ds : list ProductDoc) : Store :=
  {| product := ds; order := []; next_id := 0 |}.

(** Product A priced 10.00 and product B priced 20.00. *)
Definition st_AB : Store :=
  store_of [doc idA "Backpack" (Some 10%float);
            doc idB "Smart Watch" (Some 20%float)].

(** A price with three decimals. *)
Definition st_eighth : Store :=
  store_of [doc idA "Sticker" (Some 0.125%float)].

(** A price of half a cent. *)
Definition st_half_cent : Store :=
  store_of [doc idA "Washer" (Some 0.005%float)].

(** A product stored without a price. *)
Definition st_unpriced : Store :=
  store_of [doc idA "Leaflet" None; doc idB "Smart Watch" (Some 20%float)].

Definition item (pid : string) (q : Z) : CartItem :=
  {| product_id := pid; quantity := q |}.

Definition request (l : list CartItem) : CheckoutRequest :=
  {| customer_name := "Ada";
     customer_email := "ada@example.org";
     customer_address := "1 Main Street";
     items := l |}.

(** An integer beyond the range of a double. *)
Definition huge : Z := 10 ^ 400.

End Examples.

(** The catalog of [Examples.st_AB] with other titles, a description and
    both products out of stock; orders are already stored. *)
Module MoreExamples.

Definition st_AB_out_of_stock : Store :=
  {| product :=
       [ {| _id := Examples.idA;
            get_title := Some "Discontinued bag";
            get_description := Some "No longer sold";
            get_price := Some 10%float;
            get_category := None;
            get_image := None;
            get_in_stock := Some false |};
         {| _id := Examples.idB;
            get_title := None;
            get_description := None;
            get_price := Some 20%float;
            get_category := Some "Electronics";
            get_image := None;
            get_in_stock := Some false |} ];
     order := [];
     next_id := 0 |}.

(** A handle whose listing returns twelve collection names. *)
Definition twelve : Database :=
  {| db_name := Some "shop";
     list_collection_names :=
       inr ["a"; "b"; "c"; "d"; "e"; "f"; "g"; "h"; "i"; "j"; "k"; "l"] |}.

End MoreExamples.

(** * Properties *)

(** ** Running a handler *)

Lemma bind_inr {A B} (c : M A) (k : A -> M B) db a db' :
  c db = (inr a, db') -> bind c k db = k a db'.
Proof. intros H. unfold bind. rewrite H. reflexivity. Qed.

Lemma bind_inl {A B} (c : M A) (k : A -> M B) db e db' :
  c db = (inl e, db') -> bind c k db = (inl e, db').
Proof. intros H. unfold bind. rewrite H. reflexivity. Qed.

Lemma find_id_in_some ids st :
  find_id_in ids (Some st) =
  (inr (List.filter (fun p => existsb (String.eqb (_id p)) ids) (product st)),
   Some st).
Proof. reflexivity. Qed.

(** What [checkout] does once the identifier list is not empty and a
    store is configured. *)
Lemma checkout_some payload st :
  valid_ids (items payload) <> [] ->
  checkout payload (Some st) =
  match accumulate (resolved st (items payload)) (items payload) 0%float with
  | inl e => (inl e, Some st)
  | inr raw =>
      let tax := PyFloat.round (raw * tax_rate)%float 2 in
      let total := PyFloat.round (raw + tax)%float 2 in
      let oid := bson.generate (next_id st) in
      (inr {| order_id := bson.str oid; total := total |},
       Some {| product := product st;
               order := order st ++
                 [(oid,
                   {| schemas.customer_name := customer_name payload;
                      schemas.customer_email := customer_email payload;
                      schemas.customer_address := customer_address payload;
                      schemas.items := map order_item (items payload);
                      schemas.subtotal := PyFloat.round raw 2;
                      schemas.tax := tax;
                      schemas.total := total |})];
               next_id := (next_id st + 1)%N |})
  end.
Proof.
  intros Hids. unfold checkout, resolved.
  destruct (valid_ids (items payload)) as [|i0 ids] eqn:E; [congruence|].
  rewrite (bind_inr _ _ _ _ _ (find_id_in_some _ st)).
  unfold bind, lift.
  destruct (accumulate _ _ _) as [e|raw]; reflexivity.
Qed.

Lemma checkout_none payload e db' :
  checkout payload None = (inl e, db') -> db' = None.
Proof.
  unfold checkout.
  destruct (valid_ids (items payload)); unfold raise, bind; simpl;
    intros H; inversion H; reflexivity.
Qed.

(** ** Identifier validation *)



(** ** Atomicity of persistence *)

(** C5: a checkout that fails, with InvalidInput, ProductNotFound or any
    other exception, leaves the store exactly as it was: no order is
    persisted. The insert is the last step, after the loop over every item
    has completed. *)
Theorem checkout_failure_persists_nothing (payload : CheckoutRequest)
    (db db' : option Store) (e : exn) :
  checkout payload db = (inl e, db') -> db' = db.
Proof.
  destruct db as [st|]; [|apply checkout_none].
  destruct (valid_ids (items payload)) as [|i0 ids] eqn:E.
  - unfold checkout. rewrite E. unfold raise. intros H; inversion H; auto.
  - rewrite checkout_some by (rewrite E; discriminate).
    destruct (accumulate _ _ _); intros H; inversion H; reflexivity.
Qed.

Lemma checkout_failure_persists_nothing_witness :
  checkout (Examples.request [Examples.item Examples.idA 1;
                              Examples.item Examples.idC 1])
    (Some Examples.st_AB)
  = (inl (ProductNotFound Examples.idC), Some Examples.st_AB)
  /\ Some Examples.st_AB = Some Examples.st_AB.
Proof.
  split; [vm_compute; reflexivity|].
  apply (checkout_failure_persists_nothing
           (Examples.request [Examples.item Examples.idA 1;
                              Examples.item Examples.idC 1])
           (Some Examples.st_AB) (Some Examples.st_AB)
           (ProductNotFound Examples.idC)).
  vm_compute; reflexivity.
Defined.

(** ** The price mapping *)

Lemma price_map_fold_Some ds : forall (m : gmap string float) k p,
  fold_left (fun m d => <[bson.str (_id d) := price_of d]> m) ds m !! k
    = Some p ->
  (exists d, In d ds /\ _id d = k /\ price_of d = p) \/ m !! k = Some p.
Proof.
  induction ds as [|d ds IH]; intros m k p H; simpl in H.
  - right. exact H.
  - destruct (IH _ _ _ H) as [(d' & Hin & Hid & Hp)|Hm].
    + left. exists d'. simpl. auto.
    + unfold bson.str in Hm. cbv beta in Hm.
      destruct (decide (_id d = k)) as [Heq|Hne].
      * subst k. rewrite lookup_insert_eq in Hm. inversion Hm; subst.
        left. exists d. simpl. auto.
      * rewrite lookup_insert_ne in Hm by exact Hne. right. exact Hm.
Qed.

Lemma price_map_fold_agree ds : forall (m : gmap string float) k p,
  (forall d, In d ds -> _id d = k -> price_of d = p) ->
  (exists d, In d ds /\ _id d = k) \/ m !! k = Some p ->
  fold_left (fun m d => <[bson.str (_id d) := price_of d]> m) ds m !! k
    = Some p.
Proof.
  induction ds as [|d ds IH]; intros m k p Hall H; simpl.
  - destruct H as [(d & [] & _)|H]. exact H.
  - apply IH.
    + intros d' Hin. apply Hall. simpl. auto.
    + unfold bson.str. cbv beta.
      destruct (decide (_id d = k)) as [Heq|Hne].
      * right. subst k. rewrite lookup_insert_eq.
        f_equal. apply Hall; simpl; auto.
      * destruct H as [(d' & [->|Hin] & Hid)|Hm].
        -- contradiction.
        -- left. exists d'. auto.
        -- right. rewrite lookup_insert_ne by exact Hne. exact Hm.
Qed.

(** A key of the price mapping is the identifier of a document of the
    list, and its value that document's price. *)
Lemma price_map_of_Some ds k p :
  price_map_of ds !! k = Some p ->
  exists d, In d ds /\ _id d = k /\ price_of d = p.
Proof.
  intros H. destruct (price_map_fold_Some ds ∅ k p H) as [Hd|Hm]; [exact Hd|].
  rewrite lookup_empty in Hm. discriminate.
Qed.

Lemma price_map_of_agree ds k p :
  (exists d, In d ds /\ _id d = k) ->
  (forall d, In d ds -> _id d = k -> price_of d = p) ->
  price_map_of ds !! k = Some p.
Proof.
  intros Hex Hall. apply price_map_fold_agree; auto.
Qed.

(** A resolved price is the price of a stored document with that
    identifier. *)
Lemma resolved_Some st l k p :
  resolved st l !! k = Some p ->
  exists d, In d (product st) /\ _id d = k /\ price_of d = p.
Proof.
  intros H. apply price_map_of_Some in H as (d & Hin & Hid & Hp).
  apply filter_In in Hin as [Hin _]. exists d. auto.
Qed.

Lemma canonical_valid pid : canonical pid -> bson.is_valid pid = true.
Proof.
  unfold canonical, bson.is_valid. intros H.
  destruct (String.eqb pid EmptyString) eqn:E.
  - apply String.eqb_eq in E. subst. discriminate H.
  - rewrite H. reflexivity.
Qed.

Lemma valid_ids_canonical l pid :
  canonical pid -> In pid (map product_id l) -> In pid (valid_ids l).
Proof.
  intros Hc Hin. apply in_map_iff in Hin as (i & Hi & Hin).
  apply list_elem_of_In. unfold valid_ids. apply list_elem_of_omap.
  exists i. split.
  - apply list_elem_of_In. apply filter_In. split; [exact Hin|].
    rewrite Hi. apply canonical_valid. exact Hc.
  - rewrite Hi. exact Hc.
Qed.

(** The price mapping holds the catalog price of every product that the
    request names by its canonical identifier. *)
Lemma resolved_priced st l pid p :
  priced st pid p -> In pid (map product_id l) ->
  resolved st l !! pid = Some p.
Proof.
  intros (Hc & (d & Hin & Hid) & Hall) Hl. unfold resolved.
  apply price_map_of_agree.
  - exists d. split; [|exact Hid]. apply filter_In. split; [exact Hin|].
    apply existsb_exists. exists pid. split.
    + apply valid_ids_canonical; assumption.
    + rewrite Hid. apply String.eqb_refl.
  - intros d' Hin' Hid'. apply filter_In in Hin' as [Hin' _]. auto.
Qed.

(** An identifier that is not valid is no key of the price mapping of a
    well-formed store. *)
Lemma resolved_invalid st l pid :
  store_ids_wf st -> bson.is_valid pid = false -> resolved st l !! pid = None.
Proof.
  intros Hwf Hinv. destruct (resolved st l !! pid) as [p|] eqn:E; [|reflexivity].
  apply resolved_Some in E as (d & Hin & Hid & _).
  pose proof (proj1 (List.Forall_forall _ _) Hwf d Hin) as Hc.
  simpl in Hc. rewrite Hid in Hc. clear Hwf. rename Hc into Hwf.
  apply canonical_valid in Hwf. congruence.
Qed.

Lemma resolved_nonempty st l k p :
  resolved st l !! k = Some p -> valid_ids l <> [].
Proof.
  intros H Hnil. unfold resolved in H. rewrite Hnil in H.
  apply price_map_of_Some in H as (d & Hin & _).
  apply filter_In in Hin as [_ Hin]. discriminate Hin.
Qed.

(** ** The loop over the items *)

Lemma accumulate_inr pm l : forall s r,
  accumulate pm l s = inr r ->
  exists lines,
    Forall2 (line_of pm) l lines /\ r = fold_left PrimFloat.add lines s.
Proof.
  induction l as [|i l IH]; intros s r H; simpl in H.
  - inversion H; subst. exists []. split; [constructor|reflexivity].
  - destruct (pm !! product_id i) as [p|] eqn:Hp; [|discriminate].
    unfold PyFloat.mul_int in H.
    destruct (PyFloat.of_int (quantity i)) as [y|] eqn:Hy; [|discriminate].
    destruct (IH _ _ H) as (lines & HF & Hr).
    exists ((p * y)%float :: lines). split; [|exact Hr].
    constructor; [|exact HF]. exists p, y. auto.
Qed.

Lemma accumulate_total pm l : forall s,
  Forall (item_ok pm) l ->
  exists lines,
    Forall2 (line_of pm) l lines
    /\ accumulate pm l s = inr (fold_left PrimFloat.add lines s).
Proof.
  induction l as [|i l IH]; intros s H.
  - exists []. split; [constructor|reflexivity].
  - inversion H as [|? ? [[p Hp] [y Hy]] Hl]; subst.
    destruct (IH (s + p * y)%float Hl) as (lines & HF & Hacc).
    exists ((p * y)%float :: lines). split.
    + constructor; [|exact HF]. exists p, y. auto.
    + simpl. rewrite Hp. unfold PyFloat.mul_int. rewrite Hy. exact Hacc.
Qed.

Lemma accumulate_not_found pm l1 bad l2 : forall s,
  Forall (item_ok pm) l1 ->
  pm !! product_id bad = None ->
  accumulate pm (l1 ++ bad :: l2) s = inl (ProductNotFound (product_id bad)).
Proof.
  induction l1 as [|i l1 IH]; intros s H Hbad; simpl.
  - rewrite Hbad. reflexivity.
  - inversion H as [|? ? [[p Hp] [y Hy]] Hl]; subst.
    rewrite Hp. unfold PyFloat.mul_int. rewrite Hy. apply IH; assumption.
Qed.

(** A request whose items are all in the price mapping, with quantities
    that convert, is priced, persisted and answered. *)
Lemma checkout_succeeds payload st :
  items payload <> [] ->
  Forall (item_ok (resolved st (items payload))) (items payload) ->
  exists lines,
    Forall2 (line_of (resolved st (items payload))) (items payload) lines
    /\ checkout payload (Some st) =
       let raw := float_sum lines in
       let tax := PyFloat.round (raw * tax_rate)%float 2 in
       let total := PyFloat.round (raw + tax)%float 2 in
       let oid := bson.generate (next_id st) in
       (inr {| order_id := bson.str oid; total := total |},
        Some {| product := product st;
                order := order st ++
                  [(oid,
                    {| schemas.customer_name := customer_name payload;
                       schemas.customer_email := customer_email payload;
                       schemas.customer_address := customer_address payload;
                       schemas.items := map order_item (items payload);
                       schemas.subtotal := PyFloat.round raw 2;
                       schemas.tax := tax;
                       schemas.total := total |})];
                next_id := (next_id st + 1)%N |}).
Proof.
  intros Hne Hall.
  destruct (accumulate_total _ _ 0%float Hall) as (lines & HF & Hacc).
  exists lines. split; [exact HF|].
  rewrite checkout_some.
  - rewrite Hacc. reflexivity.
  - destruct (items payload) as [|i l] eqn:E; [congruence|].
    inversion Hall as [|? ? [[p Hp] _] _]; subst.
    eapply resolved_nonempty. exact Hp.
Qed.

(** ** Amounts of a persisted order *)

(** C1, as the code has it: a successful checkout appends one order whose
    amounts all derive from the unrounded double sum [raw] of the lines
    unit price times quantity, each unit price being the price of a stored
    product with the item's identifier: subtotal = round(raw, 2),
    tax = round(raw * 0.08, 2), total = round(raw + tax, 2), and the
    response carries that total. *)
Theorem checkout_amounts (payload : CheckoutRequest) (db db' : option Store)
    (resp : CheckoutResponse) :
  checkout payload db = (inr resp, db') ->
  exists st oid o lines,
    db = Some st
    /\ db' = Some {| product := product st;
                     order := order st ++ [(oid, o)];
                     next_id := (next_id st + 1)%N |}
    /\ Forall2 (fun i x => exists d y,
                  In d (product st) /\ _id d = product_id i
                  /\ PyFloat.of_int (quantity i) = Some y
                  /\ x = (price_of d * y)%float)
         (items payload) lines
    /\ schemas.subtotal o = PyFloat.round (float_sum lines) 2
    /\ schemas.tax o = PyFloat.round (float_sum lines * tax_rate)%float 2
    /\ schemas.total o
       = PyFloat.round (float_sum lines + schemas.tax o)%float 2
    /\ total resp = schemas.total o.
Proof.
  intros H. destruct db as [st|].
  2:{ unfold checkout in H.
      destruct (valid_ids (items payload)); discriminate H. }
  destruct (valid_ids (items payload)) as [|i0 ids] eqn:E.
  { unfold checkout in H. rewrite E in H. discriminate H. }
  rewrite checkout_some in H by (rewrite E; discriminate).
  destruct (accumulate _ _ _) as [e|raw] eqn:Hacc; [discriminate H|].
  apply accumulate_inr in Hacc as (lines & HF & Hraw).
  inversion H; subst resp db'; clear H.
  eexists st, _, _, lines. split; [reflexivity|]. split; [reflexivity|].
  fold (float_sum lines) in Hraw. subst raw. simpl.
  split; [|auto].
  clear E. induction HF as [|i x l ls (p & y & Hp & Hy & Hx) HF IH].
  - constructor.
  - constructor; [|exact IH].
    apply resolved_Some in Hp as (d & Hin & Hid & Hpr).
    exists d, y. subst p. auto.
Qed.

Lemma checkout_amounts_witness :
  exists st oid o lines,
    Some Examples.st_eighth = Some st
    /\ Some {| product := product Examples.st_eighth;
               order := [("000000000000000000000000",
                          {| schemas.customer_name := "Ada";
                             schemas.customer_email := "ada@example.org";
                             schemas.customer_address := "1 Main Street";
                             schemas.items :=
                               [order_item (Examples.item Examples.idA 1)];
                             schemas.subtotal := 0.12%float;
                             schemas.tax := 0.01%float;
                             schemas.total := 0.14%float |})];
               next_id := 1 |}
       = Some {| product := product st;
                 order := order st ++ [(oid, o)];
                 next_id := (next_id st + 1)%N |}
    /\ Forall2 (fun i x => exists d y,
                  In d (product st) /\ _id d = product_id i
                  /\ PyFloat.of_int (quantity i) = Some y
                  /\ x = (price_of d * y)%float)
         [Examples.item Examples.idA 1] lines
    /\ schemas.subtotal o = PyFloat.round (float_sum lines) 2
    /\ schemas.tax o = PyFloat.round (float_sum lines * tax_rate)%float 2
    /\ schemas.total o
       = PyFloat.round (float_sum lines + schemas.tax o)%float 2
    /\ 0.14%float = schemas.total o.
Proof.
  apply (checkout_amounts
           (Examples.request [Examples.item Examples.idA 1])
           (Some Examples.st_eighth) _
           {| order_id := "000000000000000000000000"; total := 0.14%float |}).
  vm_compute. reflexivity.
Defined.

(** C1 as stated fails: for one unit of a product priced 0.125 the order is
    persisted with subtotal 0.12, tax 0.01 and total 0.14. The tax and the
    total are computed from the unrounded 0.125, so the stored total is not
    round(subtotal + tax, 2) = 0.13 of the stored fields. *)
Lemma checkout_amounts_counterexample :
  exists resp st' oid o,
    checkout (Examples.request [Examples.item Examples.idA 1])
      (Some Examples.st_eighth) = (inr resp, Some st')
    /\ order st' = [(oid, o)]
    /\ schemas.subtotal o = 0.12%float
    /\ schemas.tax o = 0.01%float
    /\ schemas.total o = 0.14%float
    /\ PyFloat.round (schemas.subtotal o + schemas.tax o)%float 2 = 0.13%float
    /\ stored_invariant o = false.
Proof.
  do 4 eexists. split; [vm_compute; reflexivity|].
  split; [reflexivity|]. vm_compute. repeat split; reflexivity.
Qed.

(** ** Floating-point accumulation *)

Lemma of_int_1 : PyFloat.of_int 1 = Some 1%float.
Proof. vm_compute. reflexivity. Qed.

Lemma of_int_2 : PyFloat.of_int 2 = Some 2%float.
Proof. vm_compute. reflexivity. Qed.

(** C2 as stated fails: three units of a product priced at the double
    0.005. The exact value of the sum lies above 0.015 and rounds to 0.02;
    the double product 0.005 * 3.0 is the double below 0.015, and the
    stored subtotal is 0.01. *)
Lemma checkout_exact_counterexample :
  exists resp st' oid o,
    checkout (Examples.request [Examples.item Examples.idA 3])
      (Some Examples.st_half_cent) = (inr resp, Some st')
    /\ order st' = [(oid, o)]
    /\ schemas.subtotal o = 0.01%float
    /\ Exact.subtotal
         (resolved Examples.st_half_cent [Examples.item Examples.idA 3])
         [Examples.item Examples.idA 3] = Some 0.02%float
    /\ PrimFloat.eqb (schemas.subtotal o) 0.02%float = false.
Proof.
  do 4 eexists. split; [vm_compute; reflexivity|].
  split; [reflexivity|]. vm_compute. repeat split; reflexivity.
Qed.

(** C2, as the code has it: the loop accumulates in double precision, in
    request order from 0.0, each line being the double product of the unit
    price and the converted quantity. Every successful checkout rounds that
    sum [raw] to two decimals only for the stored subtotal; its tax is
    round(raw * 0.08, 2) and its total round(raw + tax, 2), both from the
    unrounded sum. For a catalog that prices A at 10.00 and B at 20.00 and
    the items [(A,2),(B,1)] the order has subtotal 40.0, tax 3.2 and total
    43.2. *)
Theorem checkout_float_accumulation (st : Store) (a b : string)
    (payload : CheckoutRequest) :
  priced st a 10%float -> priced st b 20%float ->
  items payload = [Examples.item a 2; Examples.item b 1] ->
  (forall pm l s r,
      accumulate pm l s = inr r <->
      exists lines,
        Forall2 (line_of pm) l lines /\ r = fold_left PrimFloat.add lines s)
  /\ (forall (payload0 : CheckoutRequest) (st0 : Store)
             (resp0 : CheckoutResponse) (db0 : option Store),
        checkout payload0 (Some st0) = (inr resp0, db0) ->
        exists raw oid o,
          accumulate (resolved st0 (items payload0)) (items payload0) 0%float
          = inr raw
          /\ db0 = Some {| product := product st0;
                           order := order st0 ++ [(oid, o)];
                           next_id := (next_id st0 + 1)%N |}
          /\ schemas.subtotal o = PyFloat.round raw 2
          /\ schemas.tax o = PyFloat.round (raw * tax_rate)%float 2
          /\ schemas.total o
             = PyFloat.round (raw + PyFloat.round (raw * tax_rate) 2)%float 2
          /\ total resp0 = schemas.total o)
  /\ accumulate (resolved st (items payload)) (items payload) 0%float
     = inr (0 + 10 * 2 + 20 * 1)%float
  /\ exists resp oid o,
       checkout payload (Some st)
       = (inr resp, Some {| product := product st;
                            order := order st ++ [(oid, o)];
                            next_id := (next_id st + 1)%N |})
       /\ schemas.subtotal o = 40%float
       /\ schemas.tax o = 3.2%float
       /\ schemas.total o = 43.2%float
       /\ total resp = 43.2%float.
Proof.
  intros Ha Hb Hitems.
  assert (Hpa : resolved st (items payload) !! a = Some 10%float).
  { apply resolved_priced; [exact Ha|]. rewrite Hitems. simpl. auto. }
  assert (Hpb : resolved st (items payload) !! b = Some 20%float).
  { apply resolved_priced; [exact Hb|]. rewrite Hitems. simpl. auto. }
  assert (Hacc : accumulate (resolved st (items payload)) (items payload)
                   0%float = inr (0 + 10 * 2 + 20 * 1)%float).
  { revert Hpa Hpb. generalize (resolved st (items payload)) as pm.
    intros pm Hpa Hpb. rewrite Hitems. unfold Examples.item.
    cbn [accumulate product_id quantity]. rewrite Hpa.
    unfold PyFloat.mul_int at 1. rewrite of_int_2.
    rewrite Hpb. unfold PyFloat.mul_int. rewrite of_int_1. reflexivity. }
  split; [|split; [|split; [exact Hacc|]]].
  - intros pm l s r. split; [apply accumulate_inr|].
    intros (lines & HF & ->). revert s.
    induction HF as [|i x l ls (p & y & Hp & Hy & ->) HF IH]; intros s.
    + reflexivity.
    + simpl. rewrite Hp. unfold PyFloat.mul_int. rewrite Hy. apply IH.
  - intros payload0 st0 resp0 db0 H.
    destruct (valid_ids (items payload0)) as [|i0 ids] eqn:E.
    { unfold checkout in H. rewrite E in H. discriminate H. }
    rewrite checkout_some in H by (rewrite E; discriminate).
    revert H.
    destruct (accumulate (resolved st0 (items payload0)) (items payload0)
                0%float) as [e|raw]; intros H; [discriminate H|].
    inversion H; subst resp0 db0; clear H.
    eexists raw, _, _. split; [reflexivity|]. split; [reflexivity|].
    simpl. auto.
  - rewrite checkout_some.
    + rewrite Hacc. do 3 eexists. split; [reflexivity|].
      simpl. vm_compute. repeat split; reflexivity.
    + eapply resolved_nonempty. exact Hpa.
Qed.

Lemma priced_st_AB_A : priced Examples.st_AB Examples.idA 10%float.
Proof.
  split; [reflexivity|]. split.
  - eexists. split; [left; reflexivity|reflexivity].
  - intros d [<-|[<-|[]]] Hid; [reflexivity|discriminate Hid].
Qed.

Lemma priced_st_AB_B : priced Examples.st_AB Examples.idB 20%float.
Proof.
  split; [reflexivity|]. split.
  - eexists. split; [right; left; reflexivity|reflexivity].
  - intros d [<-|[<-|[]]] Hid; [discriminate Hid|reflexivity].
Qed.

Lemma checkout_float_accumulation_witness :
  priced Examples.st_AB Examples.idA 10%float
  /\ priced Examples.st_AB Examples.idB 20%float
  /\ exists resp oid o,
       checkout (Examples.request [Examples.item Examples.idA 2;
                                   Examples.item Examples.idB 1])
         (Some Examples.st_AB)
       = (inr resp, Some {| product := product Examples.st_AB;
                            order := order Examples.st_AB ++ [(oid, o)];
                            next_id := (next_id Examples.st_AB + 1)%N |})
       /\ schemas.subtotal o = 40%float
       /\ schemas.tax o = 3.2%float
       /\ schemas.total o = 43.2%float
       /\ total resp = 43.2%float.
Proof.
  split; [exact priced_st_AB_A|]. split; [exact priced_st_AB_B|].
  exact (proj2 (proj2 (proj2 (checkout_float_accumulation Examples.st_AB
                         Examples.idA Examples.idB
                         (Examples.request [Examples.item Examples.idA 2;
                                            Examples.item Examples.idB 1])
                         priced_st_AB_A priced_st_AB_B eq_refl)))).
Defined.

(** ** Missing products *)

(** C3 as stated fails: the second item names a product that is not in the
    price mapping, but the first item's quantity does not convert to a
    double, and the loop raises OverflowError on it before it reaches the
    missing product. *)
Lemma checkout_product_not_found_counterexample :
  resolved Examples.st_AB
    [Examples.item Examples.idA Examples.huge; Examples.item Examples.idC 1]
    !! Examples.idC = None
  /\ checkout
       (Examples.request [Examples.item Examples.idA Examples.huge;
                          Examples.item Examples.idC 1])
       (Some Examples.st_AB)
     = (inl OverflowError, Some Examples.st_AB).
Proof. split; vm_compute; reflexivity. Qed.

(** C3, as the code has it: when the items before the first one that is
    absent from the price mapping have quantities that convert to a double,
    checkout raises the HTTP 400 error "Product not found: <id>" for that
    first item and leaves the store as it was, whatever follows it. An item
    whose identifier is not valid is absent from the mapping of a store
    whose identifiers are ObjectIds, and fails the same way. *)
Theorem checkout_product_not_found (st : Store) (payload : CheckoutRequest)
    (l1 l2 : list CartItem) (bad : CartItem) :
  items payload = l1 ++ bad :: l2 ->
  valid_ids (items payload) <> [] ->
  Forall (item_ok (resolved st (items payload))) l1 ->
  resolved st (items payload) !! product_id bad = None
  \/ (store_ids_wf st /\ bson.is_valid (product_id bad) = false) ->
  checkout payload (Some st)
  = (inl (HTTPException 400 ("Product not found: " ++ product_id bad)),
     Some st).
Proof.
  intros Hitems Hids Hl1 Hbad.
  assert (Hnone : resolved st (items payload) !! product_id bad = None).
  { destruct Hbad as [H|[Hwf Hinv]]; [exact H|].
    apply resolved_invalid; assumption. }
  rewrite checkout_some by exact Hids.
  rewrite Hitems at 2.
  rewrite (accumulate_not_found _ l1 bad l2 0%float Hl1 Hnone).
  reflexivity.
Qed.

Lemma checkout_product_not_found_witness :
  checkout
    (Examples.request [Examples.item Examples.idA 1;
                       Examples.item "no such product" 1;
                       Examples.item Examples.idC 1])
    (Some Examples.st_AB)
  = (inl (HTTPException 400 "Product not found: no such product"),
     Some Examples.st_AB).
Proof.
  apply (checkout_product_not_found Examples.st_AB
           (Examples.request [Examples.item Examples.idA 1;
                              Examples.item "no such product" 1;
                              Examples.item Examples.idC 1])
           [Examples.item Examples.idA 1]
           [Examples.item Examples.idC 1]
           (Examples.item "no such product" 1)).
  - reflexivity.
  - vm_compute. discriminate.
  - constructor; [|constructor].
    split; [exists 10%float|exists 1%float]; vm_compute; reflexivity.
  - right. split; [|reflexivity].
    repeat constructor.
Defined.

(** ** The persisted order *)

(** C6 as stated fails: the single item is in the price mapping, so every
    item validates, but its quantity does not convert to a double; checkout
    raises OverflowError and persists nothing. *)
Lemma checkout_persists_order_counterexample :
  resolved Examples.st_AB [Examples.item Examples.idB (- Examples.huge)]
    !! Examples.idB = Some 20%float
  /\ checkout (Examples.request [Examples.item Examples.idB (- Examples.huge)])
       (Some Examples.st_AB)
     = (inl OverflowError, Some Examples.st_AB).
Proof. split; vm_compute; reflexivity. Qed.

(** C6, as the code has it: when every item of a non-empty request is in
    the price mapping and has a quantity that converts to a double,
    checkout appends exactly one order to the order collection. Its
    customer fields are those of the request, its items are the request's
    items in order, each reduced to product identifier and quantity, and
    the response carries the identifier under which the order was stored
    and the order's total. *)
Theorem checkout_persists_order (st : Store) (payload : CheckoutRequest) :
  items payload <> [] ->
  Forall (item_ok (resolved st (items payload))) (items payload) ->
  exists resp o,
    checkout payload (Some st)
    = (inr resp, Some {| product := product st;
                         order := order st ++ [(order_id resp, o)];
                         next_id := (next_id st + 1)%N |})
    /\ schemas.customer_name o = customer_name payload
    /\ schemas.customer_email o = customer_email payload
    /\ schemas.customer_address o = customer_address payload
    /\ map schemas.product_id (schemas.items o)
       = map product_id (items payload)
    /\ map schemas.quantity (schemas.items o) = map quantity (items payload)
    /\ total resp = schemas.total o.
Proof.
  intros Hne Hall.
  destruct (checkout_succeeds payload st Hne Hall) as (lines & _ & Hc).
  rewrite Hc. cbv zeta.
  eexists (Build_CheckoutResponse _ _), _. split; [reflexivity|]. simpl.
  unfold order_item. rewrite !map_map. simpl. auto 10.
Qed.

Lemma checkout_persists_order_witness :
  exists resp o,
    checkout (Examples.request [Examples.item Examples.idB 3;
                                Examples.item Examples.idA 1])
      (Some Examples.st_AB)
    = (inr resp, Some {| product := product Examples.st_AB;
                         order := order Examples.st_AB ++ [(order_id resp, o)];
                         next_id := (next_id Examples.st_AB + 1)%N |})
    /\ schemas.customer_name o = "Ada"
    /\ schemas.customer_email o = "ada@example.org"
    /\ schemas.customer_address o = "1 Main Street"
    /\ map schemas.product_id (schemas.items o) = [Examples.idB; Examples.idA]
    /\ map schemas.quantity (schemas.items o) = [3; 1]
    /\ total resp = schemas.total o.
Proof.
  apply (checkout_persists_order Examples.st_AB
           (Examples.request [Examples.item Examples.idB 3;
                              Examples.item Examples.idA 1])).
  - discriminate.
  - constructor; [|constructor; [|constructor]].
    + split; [exists 20%float|exists 3%float]; vm_compute; reflexivity.
    + split; [exists 10%float|exists 1%float]; vm_compute; reflexivity.
Defined.

(** ** Products without a price, and quantities of any sign *)

(** A finite double denotes zero or a nonzero finite number. *)
Lemma Prim2SF_finite y :
  is_finite y = true ->
  (exists s, Prim2SF y = S754_zero s) \/ (exists s m e, Prim2SF y = S754_finite s m e).
Proof.
  unfold is_finite. intros H.
  apply negb_true_iff, orb_false_iff in H as [Hnan Hinf].
  unfold Prim2SF. rewrite Hnan.
  destruct (is_zero y); [left; eauto|]. rewrite Hinf.
  destruct (Z.frexp y) as [r ex].
  destruct (shr_fexp _ _ _ _ _) as [shr e'].
  destruct (shr_m shr); [left|right|left]; eauto.
Qed.

(** The double product of 0.0 and a finite double is a zero. *)
Lemma mul_zero_finite y :
  is_finite y = true -> PrimFloat.eqb (0 * y) 0 = true.
Proof.
  intros H. rewrite FloatAxioms.eqb_spec, mul_spec.
  change (Prim2SF 0) with (S754_zero false).
  destruct (Prim2SF_finite y H) as [[s ->]|(s & m & e & ->)]; reflexivity.
Qed.

Lemma of_int_finite q y : PyFloat.of_int q = Some y -> is_finite y = true.
Proof.
  unfold PyFloat.of_int.
  destruct (is_finite (SF2Prim _)) eqn:E; intros H; inversion H; subst.
  exact E.
Qed.

(** C9 as stated fails: the item names a product stored without a price,
    but its quantity does not convert to a double; checkout raises
    OverflowError and persists nothing. *)
Lemma checkout_unpriced_counterexample :
  (exists d, In d (product Examples.st_unpriced)
             /\ _id d = Examples.idA /\ get_price d = None)
  /\ checkout (Examples.request [Examples.item Examples.idA (2 ^ 1024)])
       (Some Examples.st_unpriced)
     = (inl OverflowError, Some Examples.st_unpriced).
Proof.
  split.
  - eexists. split; [left; reflexivity|]. split; reflexivity.
  - vm_compute. reflexivity.
Qed.

(** C9, as the code has it: when every item of a non-empty request names a
    stored product by its canonical identifier and has a quantity that
    converts to a double, checkout succeeds and persists one more order;
    for an item whose product is stored without a price the unit price in
    the mapping is 0.0 and the item's line, 0.0 times the quantity, is a
    zero. *)
Theorem checkout_unpriced_product (st : Store) (payload : CheckoutRequest) :
  items payload <> [] ->
  Forall (fun i => (exists p, priced st (product_id i) p) /\ fits (quantity i))
    (items payload) ->
  exists resp st' lines,
    checkout payload (Some st) = (inr resp, Some st')
    /\ length (order st') = S (length (order st))
    /\ (exists oid o,
          last (order st') = Some (oid, o)
          /\ schemas.subtotal o = PyFloat.round (float_sum lines) 2)
    /\ Forall2 (fun i x =>
         line_of (resolved st (items payload)) i x
         /\ ((forall d, In d (product st) -> _id d = product_id i ->
                        get_price d = None) ->
             resolved st (items payload) !! product_id i = Some 0%float
             /\ PrimFloat.eqb x 0 = true))
         (items payload) lines.
Proof.
  intros Hne Hall.
  assert (Hok : Forall (item_ok (resolved st (items payload))) (items payload)).
  { apply List.Forall_forall. intros i Hi.
    pose proof (proj1 (List.Forall_forall _ _) Hall i Hi) as [[p Hp] Hq].
    split; [|exact Hq]. exists p. apply resolved_priced; [exact Hp|].
    apply in_map. exact Hi. }
  destruct (checkout_succeeds payload st Hne Hok) as (lines & HF & Hc).
  rewrite Hc. cbv zeta. do 2 eexists. exists lines.
  split; [reflexivity|]. simpl. split.
  { rewrite length_app. simpl. lia. }
  split.
  { do 2 eexists. rewrite last_snoc. split; reflexivity. }
  clear Hc Hok Hne Hall.
  assert (Hpm : forall k p, resolved st (items payload) !! k = Some p ->
            exists d, In d (product st) /\ _id d = k /\ price_of d = p)
    by (intros k p; apply resolved_Some).
  revert HF Hpm. generalize (resolved st (items payload)) as pm.
  intros pm HF Hpm.
  induction HF as [|i x l ls Hline HF IH]; [constructor|].
  constructor; [|exact IH]. split; [exact Hline|].
  intros Hnone. destruct Hline as (p & y & Hp & Hy & ->).
  assert (p = 0%float) as ->.
  { destruct (Hpm _ _ Hp) as (d & Hin & Hid & <-).
    unfold price_of. rewrite (Hnone d Hin Hid). reflexivity. }
  split; [exact Hp|]. apply mul_zero_finite. eapply of_int_finite. exact Hy.
Qed.

Lemma priced_st_unpriced_A : priced Examples.st_unpriced Examples.idA 0%float.
Proof.
  split; [reflexivity|]. split.
  - eexists. split; [left; reflexivity|reflexivity].
  - intros d [<-|[<-|[]]] Hid; [reflexivity|discriminate Hid].
Qed.

Lemma priced_st_unpriced_B : priced Examples.st_unpriced Examples.idB 20%float.
Proof.
  split; [reflexivity|]. split.
  - eexists. split; [right; left; reflexivity|reflexivity].
  - intros d [<-|[<-|[]]] Hid; [discriminate Hid|reflexivity].
Qed.

Lemma checkout_unpriced_product_witness :
  exists resp st' lines,
    checkout (Examples.request [Examples.item Examples.idA (-3);
                                Examples.item Examples.idB 2])
      (Some Examples.st_unpriced) = (inr resp, Some st')
    /\ length (order st') = S (length (order Examples.st_unpriced))
    /\ (exists oid o,
          last (order st') = Some (oid, o)
          /\ schemas.subtotal o = PyFloat.round (float_sum lines) 2)
    /\ Forall2 (fun i x =>
         line_of (resolved Examples.st_unpriced
                    [Examples.item Examples.idA (-3);
                     Examples.item Examples.idB 2]) i x
         /\ ((forall d, In d (product Examples.st_unpriced) ->
                        _id d = product_id i -> get_price d = None) ->
             resolved Examples.st_unpriced
               [Examples.item Examples.idA (-3); Examples.item Examples.idB 2]
               !! product_id i = Some 0%float
             /\ PrimFloat.eqb x 0 = true))
         [Examples.item Examples.idA (-3); Examples.item Examples.idB 2]
         lines.
Proof.
  apply (checkout_unpriced_product Examples.st_unpriced
           (Examples.request [Examples.item Examples.idA (-3);
                              Examples.item Examples.idB 2])).
  - discriminate.
  - constructor; [|constructor; [|constructor]].
    + split; [exists 0%float; exact priced_st_unpriced_A|].
      exists (-3)%float. vm_compute. reflexivity.
    + split; [exists 20%float; exact priced_st_unpriced_B|].
      exists 2%float. vm_compute. reflexivity.
Defined.

(** C10 as stated fails for a quantity beyond the range of a double: the
    item is not accepted, checkout raises OverflowError and persists
    nothing. *)
Lemma checkout_any_quantity_counterexample :
  priced Examples.st_AB Examples.idA 10%float
  /\ checkout (Examples.request [Examples.item Examples.idA Examples.huge])
       (Some Examples.st_AB)
     = (inl OverflowError, Some Examples.st_AB).
Proof. split; [exact priced_st_AB_A|vm_compute; reflexivity]. Qed.

(** C10, as the code has it: checkout puts no sign constraint on a
    quantity. An item whose product the catalog prices at [p] and whose
    integer quantity converts to the double [y], be it zero or negative,
    adds the double product p * y to the running subtotal, and a request
    of that one item is persisted with amounts derived from p * y. Quantity
    -1 of a product priced 10.00 persists subtotal -10.0,
    tax -0.8 and total -10.8; quantity 0 persists three zeros. *)
Theorem checkout_any_quantity (st : Store) (payload : CheckoutRequest)
    (pid : string) (p : float) (q : Z) (y : float) :
  priced st pid p ->
  PyFloat.of_int q = Some y ->
  items payload = [Examples.item pid q] ->
  (forall pm rest s,
      pm !! pid = Some p ->
      accumulate pm (Examples.item pid q :: rest) s
      = accumulate pm rest (s + p * y)%float)
  /\ (exists resp oid o,
        checkout payload (Some st)
        = (inr resp, Some {| product := product st;
                             order := order st ++ [(oid, o)];
                             next_id := (next_id st + 1)%N |})
        /\ schemas.items o
           = [{| schemas.product_id := pid; schemas.quantity := q |}]
        /\ schemas.subtotal o = PyFloat.round (0 + p * y)%float 2
        /\ schemas.tax o = PyFloat.round ((0 + p * y) * tax_rate)%float 2
        /\ schemas.total o
           = PyFloat.round ((0 + p * y) + schemas.tax o)%float 2)
  /\ (exists resp st' oid o,
        checkout (Examples.request [Examples.item Examples.idA (-1)])
          (Some Examples.st_AB) = (inr resp, Some st')
        /\ order st' = [(oid, o)]
        /\ schemas.subtotal o = (-10)%float
        /\ schemas.tax o = (-0.8)%float
        /\ schemas.total o = (-10.8)%float)
  /\ (exists resp st' oid o,
        checkout (Examples.request [Examples.item Examples.idA 0])
          (Some Examples.st_AB) = (inr resp, Some st')
        /\ order st' = [(oid, o)]
        /\ schemas.subtotal o = 0%float
        /\ schemas.tax o = 0%float
        /\ schemas.total o = 0%float).
Proof.
  intros Hp Hy Hitems. split; [|split; [|split]].
  - intros pm rest s Hpm. simpl. rewrite Hpm.
    unfold PyFloat.mul_int. rewrite Hy. reflexivity.
  - assert (Hpm : resolved st (items payload) !! pid = Some p).
    { apply resolved_priced; [exact Hp|]. rewrite Hitems. simpl. auto. }
    rewrite checkout_some by (eapply resolved_nonempty; exact Hpm).
    revert Hpm. generalize (resolved st (items payload)) as pm. intros pm Hpm.
    rewrite Hitems. unfold Examples.item.
    cbn [accumulate product_id quantity]. rewrite Hpm.
    unfold PyFloat.mul_int. rewrite Hy.
    do 3 eexists. split; [reflexivity|]. simpl. auto.
  - do 4 eexists. split; [vm_compute; reflexivity|].
    split; [reflexivity|]. vm_compute. auto.
  - do 4 eexists. split; [vm_compute; reflexivity|].
    split; [reflexivity|]. vm_compute. auto.
Qed.

Lemma checkout_any_quantity_witness :
  exists resp oid o,
    checkout (Examples.request [Examples.item Examples.idB (-2)])
      (Some Examples.st_AB)
    = (inr resp, Some {| product := product Examples.st_AB;
                         order := order Examples.st_AB ++ [(oid, o)];
                         next_id := (next_id Examples.st_AB + 1)%N |})
    /\ schemas.items o
       = [{| schemas.product_id := Examples.idB; schemas.quantity := -2 |}]
    /\ schemas.subtotal o = PyFloat.round (0 + 20 * -2)%float 2
    /\ schemas.tax o = PyFloat.round ((0 + 20 * -2) * tax_rate)%float 2
    /\ schemas.total o
       = PyFloat.round ((0 + 20 * -2) + schemas.tax o)%float 2.
Proof.
  refine (proj1 (proj2 (checkout_any_quantity Examples.st_AB
            (Examples.request [Examples.item Examples.idB (-2)])
            Examples.idB 20%float (-2) (-2)%float
            priced_st_AB_B _ eq_refl))).
  vm_compute. reflexivity.
Defined.

(** ** Seeding *)

Lemma count_documents_pos st :
  product st <> [] -> (0 <? count_documents st) = true.
Proof.
  intros H. unfold count_documents. apply Z.ltb_lt.
  destruct (product st); [congruence|]. simpl. lia.
Qed.

(** Past the test of [db], the function is idempotent on a configured
    store: an empty product collection receives the six samples and the
    answer is seeded=true with inserted=6, a non-empty one is left alone
    and the answer is seeded=false with its count; a second run answers
    seeded=false and changes nothing. *)
Lemma seed_body_idempotent (st : Store) :
  exists resp1 st1,
    seed_body true (Some st) = (inr resp1, Some st1)
    /\ match product st with
       | [] =>
           seeded resp1 = true
           /\ inserted resp1 = Some 6
           /\ length (product st1) = 6%nat
       | _ :: _ =>
           seeded resp1 = false
           /\ count resp1 = Some (Z.of_nat (length (product st)))
           /\ st1 = st
       end
    /\ seed_body true (Some st1)
       = (inr {| seeded := false;
                 message := Some "Products already exist";
                 count := Some (Z.of_nat (length (product st1)));
                 inserted := None |},
          Some st1).
Proof.
  destruct st as [prods ords nid]. destruct prods as [|d ds].
  - do 2 eexists. split; [reflexivity|]. split.
    + cbn -[bson.generate]. auto.
    + reflexivity.
  - assert (Hpos : (0 <? count_documents
                      {| product := d :: ds; order := ords; next_id := nid |})
                   = true) by (apply count_documents_pos; discriminate).
    unfold seed_body. rewrite Hpos.
    do 2 eexists. split; [reflexivity|]. split.
    + cbn. auto.
    + rewrite Hpos. reflexivity.
Qed.

(** C8 fails on the code: for every configured store, whatever its product
    collection holds, the test [if db] raises NotImplementedError before
    anything is counted or inserted. The call returns no report, neither
    seeded=true with the inserted count nor seeded=false with the existing
    count, and the store is left as it was; a second call does the same. *)
Theorem seed_products_raises (st : Store) :
  seed_products (Some st) = (inl NotImplementedError, Some st)
  /\ forall db1, snd (seed_products (Some st)) = db1 ->
       seed_products db1 = (inl NotImplementedError, Some st).
Proof.
  split; [reflexivity|]. intros db1 H. simpl in H. subst db1. reflexivity.
Qed.

(** ** The catalog query *)

Lemma build_out_renders docs :
  Forall (fun d => is_Some (get_title d) /\ is_Some (get_category d)) docs ->
  exists out, build_out docs = inr out /\ Forall2 renders docs out.
Proof.
  induction docs as [|d docs IH]; intros H.
  - exists []. split; [reflexivity|constructor].
  - inversion H as [|? ? [[t Ht] [c Hc]] Hrest]; subst.
    destruct (IH Hrest) as (out & Hout & HF).
    eexists. simpl. unfold ProductOut_of. rewrite Ht, Hc, Hout.
    split; [reflexivity|]. constructor; [|exact HF].
    unfold renders, price_of. simpl. rewrite Ht, Hc.
    repeat split.
Qed.

Lemma doc_matches_selects category q m d :
  doc_matches (truthy category)
    (match truthy q with Some _ => Some m | None => None end) d
  = selects category q m d.
Proof.
  unfold doc_matches, selects, truthy. f_equal.
  - destruct category as [c|]; [|reflexivity].
    destruct (String.eqb c EmptyString); [reflexivity|].
    destruct (get_category d) as [c'|].
    + destruct (String.eqb_spec c' c) as [->|Hne].
      * symmetry. apply bool_decide_eq_true. reflexivity.
      * symmetry. apply bool_decide_eq_false. congruence.
    + symmetry. apply bool_decide_eq_false. discriminate.
  - destruct q as [p|]; [|reflexivity].
    destruct (String.eqb p EmptyString); reflexivity.
Qed.

(** C7, as the code has it: when the store's engine compiles a non-empty
    [q] to the case-insensitive matcher [m] and the stored products have a
    title and a category, the query answers with the renderings, in store
    order, of the first [limit] products (50 when [limit] is omitted) among
    those that equal a non-empty [category] and whose title [m] matches.
    A rendering carries the stored fields, an absent description or image
    staying absent, an absent price becoming 0.0 and an absent in_stock
    becoming true. The store is left as it was. *)
Theorem list_products_selection
    (regex : string -> string -> exn + (string -> bool)) (st : Store)
    (category q : option string) (limit : option Z) (m : string -> bool) :
  (forall p, truthy q = Some p -> regex p "i" = inr m) ->
  Forall (fun d => is_Some (get_title d) /\ is_Some (get_category d))
    (product st) ->
  exists out,
    list_products regex category q limit (Some st) = (inr out, Some st)
    /\ Forall2 renders
         (take (Z.to_nat (default 50 limit))
            (List.filter (selects category q m) (product st)))
         out.
Proof.
  intros Hre Hdocs.
  set (docs := take (Z.to_nat (default 50 limit))
                 (List.filter (selects category q m) (product st))).
  assert (Hd : Forall (fun d => is_Some (get_title d)
                                /\ is_Some (get_category d)) docs).
  { apply Forall_take. apply List.Forall_forall. intros d Hin.
    apply filter_In in Hin as [Hin _].
    exact (proj1 (List.Forall_forall _ _) Hdocs d Hin). }
  destruct (build_out_renders docs Hd) as (out & Hout & HF).
  exists out. split; [|exact HF].
  unfold list_products, bind, get_documents, lift. cbn [filt_title filt_category].
  assert (Hsel : List.filter
            (doc_matches (truthy category)
               (match truthy q with Some _ => Some m | None => None end))
            (product st)
          = List.filter (selects category q m) (product st)).
  { apply filter_ext. intros d. apply doc_matches_selects. }
  change default_limit with 50.
  destruct (truthy q) as [p|] eqn:Hq.
  - rewrite (Hre p eq_refl). rewrite Hsel. fold docs. rewrite Hout.
    reflexivity.
  - rewrite Hsel. fold docs. rewrite Hout. reflexivity.
Qed.

Lemma list_products_selection_witness :
  exists out,
    list_products regex.fragment (Some "Accessories") (Some "WATCH") (Some 5)
      (Some Examples.st_AB) = (inr out, Some Examples.st_AB)
    /\ Forall2 renders
         (take (Z.to_nat (default 50 (Some 5)))
            (List.filter
               (selects (Some "Accessories") (Some "WATCH")
                  (regex.search true
                     [regex.Lit "W"; regex.Lit "A"; regex.Lit "T";
                      regex.Lit "C"; regex.Lit "H"]))
               (product Examples.st_AB)))
         out.
Proof.
  apply (list_products_selection regex.fragment Examples.st_AB
           (Some "Accessories") (Some "WATCH") (Some 5)).
  - intros p H. inversion H; subst. reflexivity.
  - repeat constructor; eexists; reflexivity.
Defined.

(** ** Pattern characters *)

Lemma occurs_app c pre post : occurs c (pre ++ String c post) = true.
Proof.
  induction pre as [|a pre IH]; simpl.
  - rewrite Ascii.eqb_refl. reflexivity.
  - rewrite IH. apply orb_true_r.
Qed.

(** C7 as stated fails: the query q="." is handed to the store as a
    regular expression, in which the dot matches any character, and
    returns both products of the catalog although neither title contains
    a dot. *)
Lemma list_products_substring_counterexample :
  exists out,
    list_products regex.fragment None (Some ".") None (Some Examples.st_AB)
    = (inr out, Some Examples.st_AB)
    /\ map title out = ["Backpack"; "Smart Watch"]
    /\ ~ contains_ci "." "Backpack"
    /\ ~ contains_ci "." "Smart Watch".
Proof.
  eexists. split; [vm_compute; reflexivity|]. split; [reflexivity|].
  split; intros (pre & post & H);
    apply (f_equal (occurs ".")) in H;
    change (lower_string ".") with (String "." EmptyString) in H;
    change (String "." EmptyString +:+ post)%string
      with (String "." post) in H;
    rewrite occurs_app in H; vm_compute in H; discriminate H.
Qed.

(** ** Literal patterns *)

Lemma string_of_list_ascii_app (a b : list ascii) :
  string_of_list_ascii (a ++ b)
  = (string_of_list_ascii a +:+ string_of_list_ascii b)%string.
Proof. induction a as [|c a IH]; simpl; [reflexivity|]. rewrite IH. reflexivity. Qed.

Lemma list_ascii_of_string_app (a b : string) :
  list_ascii_of_string (a +:+ b)%string
  = list_ascii_of_string a ++ list_ascii_of_string b.
Proof. induction a as [|c a IH]; simpl; [reflexivity|]. rewrite IH. reflexivity. Qed.

Lemma parse_literal q :
  literal q = true ->
  regex.parse q = Some (map regex.Lit (list_ascii_of_string q)).
Proof.
  unfold literal. induction q as [|c r IH]; simpl; [reflexivity|].
  intros H. apply andb_true_iff in H as [Hc Hr].
  rewrite (IH Hr). apply negb_true_iff in Hc.
  destruct (Ascii.eqb c ".") eqn:E.
  - apply Ascii.eqb_eq in E. subst c. discriminate Hc.
  - rewrite Hc. reflexivity.
Qed.

Lemma match_here_literal cs : forall t,
  regex.match_here true (map regex.Lit cs) t = true <->
  exists post,
    map regex.lower (list_ascii_of_string t) = map regex.lower cs ++ post.
Proof.
  induction cs as [|c cs IH]; intros t; simpl.
  - split; [eauto|reflexivity].
  - destruct t as [|a t]; simpl.
    + split; [discriminate|intros [post H]; discriminate H].
    + rewrite andb_true_iff, IH, Ascii.eqb_eq. split.
      * intros [Heq [post H]]. exists post. rewrite H, Heq. reflexivity.
      * intros [post H]. inversion H as [[Ha Ht]]. split; [auto|].
        exists post. exact Ht.
Qed.

Lemma search_split p : forall t,
  regex.search true p t = true <->
  exists pre suf,
    list_ascii_of_string t = pre ++ list_ascii_of_string suf
    /\ regex.match_here true p suf = true.
Proof.
  induction t as [|a t IH].
  - simpl. rewrite orb_false_r. split.
    + intros H. exists [], EmptyString. auto.
    + intros (pre & suf & Hs & Hm).
      destruct pre; [|discriminate Hs]. destruct suf; [exact Hm|discriminate Hs].
  - cbn [regex.search]. rewrite orb_true_iff, IH. split.
    + intros [Hm|(pre & suf & Hs & Hm)].
      * exists [], (String a t). auto.
      * exists (a :: pre), suf. simpl. rewrite Hs. auto.
    + intros (pre & suf & Hs & Hm). destruct pre as [|a' pre].
      * left. simpl in Hs.
        replace (String a t) with suf; [exact Hm|].
        rewrite <- (string_of_list_ascii_of_string suf), <- Hs.
        simpl. rewrite string_of_list_ascii_of_string. reflexivity.
      * right. simpl in Hs. inversion Hs. exists pre, suf. auto.
Qed.

(** On a pattern without special characters the engine of the fragment
    matches, with option [i], exactly the titles that contain the pattern
    as a substring, letter case ignored. *)
Lemma fragment_literal_substring (q t : string) :
  literal q = true ->
  exists m,
    regex.fragment q "i" = inr m /\ (m t = true <-> contains_ci q t).
Proof.
  intros Hq. unfold regex.fragment. rewrite (parse_literal q Hq).
  eexists. split; [reflexivity|].
  change (regex.has_i "i") with true.
  rewrite search_split. unfold contains_ci, lower_string. split.
  - intros (pre & suf & Hs & Hm).
    apply match_here_literal in Hm as [post Hm].
    exists (string_of_list_ascii (map regex.lower pre)),
           (string_of_list_ascii post).
    rewrite Hs, map_app, Hm, !string_of_list_ascii_app. reflexivity.
  - intros (pre & post & H).
    apply (f_equal list_ascii_of_string) in H.
    rewrite list_ascii_of_string_of_list_ascii in H.
    rewrite !list_ascii_of_string_app in H.
    rewrite list_ascii_of_string_of_list_ascii in H.
    apply map_eq_app in H as (l1 & l2 & Ht & _ & Hl2).
    exists l1, (string_of_list_ascii l2).
    rewrite list_ascii_of_string_of_list_ascii. split; [exact Ht|].
    apply match_here_literal. exists (list_ascii_of_string post).
    rewrite list_ascii_of_string_of_list_ascii. exact Hl2.
Qed.

(** * Further properties of the handlers *)

(** ** checkout: what the loop does *)

(** Processing a list of items is processing a first part and then, from
    the subtotal reached, the rest; a failure in the first part is the
    failure of the whole, and the rest is not looked at. *)
Theorem accumulate_app (pm : gmap string float) (l1 l2 : list CartItem)
    (s : float) :
  accumulate pm (l1 ++ l2) s =
  match accumulate pm l1 s with
  | inl e => inl e
  | inr r => accumulate pm l2 r
  end.
Proof.
  revert s. induction l1 as [|i l1 IH]; intros s; simpl; [reflexivity|].
  destruct (pm !! product_id i); [|reflexivity].
  destruct (PyFloat.mul_int _ _); [apply IH|reflexivity].
Qed.

(** The loop fails only at a first offending item, the items before it
    having passed: either that item's product is not in the price mapping
    and the error is "Product not found" with its identifier, or its
    product is there and its quantity does not convert to a double, and the
    error is OverflowError. *)
Theorem accumulate_failure (pm : gmap string float) (l : list CartItem)
    (s : float) (e : exn) :
  accumulate pm l s = inl e ->
  exists l1 i l2,
    l = l1 ++ i :: l2
    /\ Forall (item_ok pm) l1
    /\ ((pm !! product_id i = None /\ e = ProductNotFound (product_id i))
        \/ (is_Some (pm !! product_id i)
            /\ PyFloat.of_int (quantity i) = None
            /\ e = OverflowError)).
Proof.
  revert s. induction l as [|i l IH]; intros s H; simpl in H; [discriminate|].
  destruct (pm !! product_id i) as [p|] eqn:Hp.
  - unfold PyFloat.mul_int in H.
    destruct (PyFloat.of_int (quantity i)) as [y|] eqn:Hy.
    + destruct (IH _ H) as (l1 & j & l2 & -> & Hl1 & Hj).
      exists (i :: l1), j, l2. split; [reflexivity|]. split; [|exact Hj].
      constructor; [|exact Hl1].
      split; [exists p; exact Hp|exists y; exact Hy].
    + inversion H; subst. exists [], i, l. split; [reflexivity|].
      split; [constructor|]. right. split; [exists p; exact Hp|auto].
  - inversion H; subst. exists [], i, l. split; [reflexivity|].
    split; [constructor|]. left. auto.
Qed.

Lemma accumulate_failure_witness :
  exists l1 i l2,
    [Examples.item Examples.idA 1; Examples.item Examples.idB Examples.huge;
     Examples.item Examples.idC 1]
    = l1 ++ i :: l2
    /\ Forall (item_ok (price_map_of (product Examples.st_AB))) l1
    /\ ((price_map_of (product Examples.st_AB) !! product_id i = None
         /\ OverflowError = ProductNotFound (product_id i))
        \/ (is_Some (price_map_of (product Examples.st_AB) !! product_id i)
            /\ PyFloat.of_int (quantity i) = None
            /\ OverflowError = OverflowError)).
Proof.
  apply (accumulate_failure (price_map_of (product Examples.st_AB))
           [Examples.item Examples.idA 1;
            Examples.item Examples.idB Examples.huge;
            Examples.item Examples.idC 1] 0%float OverflowError).
  vm_compute. reflexivity.
Defined.

(** ** checkout: identifiers *)

Lemma valid_ids_parsed l i o :
  In i l -> bson.ObjectId_of (product_id i) = Some o -> valid_ids l <> [].
Proof.
  intros Hin Ho Hnil.
  assert (Hv : bson.is_valid (product_id i) = true).
  { unfold bson.is_valid.
    destruct (String.eqb (product_id i) EmptyString) eqn:E.
    - apply String.eqb_eq in E. rewrite E in Ho. discriminate Ho.
    - rewrite Ho. reflexivity. }
  assert (Hel : o ∈ valid_ids l).
  { unfold valid_ids. apply list_elem_of_omap. exists i. split; [|exact Ho].
    apply list_elem_of_In. apply filter_In. auto. }
  rewrite Hnil in Hel. inversion Hel.
Qed.

(** Against a store whose identifiers are ObjectIds, checkout succeeds
    only when every item names its product by the canonical identifier, 24
    lowercase hexadecimal digits, and has a quantity that converts. The
    price mapping is keyed by [str(_id)]: an item that names a stored
    product by another spelling of its identifier, such as the same digits
    in upper case, is looked up and found, and then refused with "Product
    not found" and the spelling it used. *)
Theorem checkout_requires_canonical_ids (st : Store)
    (payload : CheckoutRequest) :
  store_ids_wf st ->
  (forall resp db',
      checkout payload (Some st) = (inr resp, db') ->
      Forall (fun i => canonical (product_id i)) (items payload)
      /\ Forall (fun i => fits (quantity i)) (items payload))
  /\ (forall l1 bad l2 d,
        items payload = l1 ++ bad :: l2 ->
        Forall (item_ok (resolved st (items payload))) l1 ->
        In d (product st) ->
        bson.ObjectId_of (product_id bad) = Some (_id d) ->
        product_id bad <> _id d ->
        checkout payload (Some st)
        = (inl (HTTPException 400 ("Product not found: " ++ product_id bad)),
           Some st)).
Proof.
  intros Hwf. split.
  - intros resp db' H.
    destruct (valid_ids (items payload)) as [|i0 ids] eqn:E.
    { unfold checkout in H. rewrite E in H. discriminate H. }
    rewrite checkout_some in H by (rewrite E; discriminate).
    destruct (accumulate _ _ _) as [e|raw] eqn:Hacc; [discriminate H|].
    apply accumulate_inr in Hacc as (lines & HF & _). clear H E.
    revert HF. generalize (items payload) at 2 3 4. intros l HF.
    induction HF as [|i x l ls (p & y & Hp & Hy & _) HF IH].
    + split; constructor.
    + destruct IH as [IH1 IH2]. split; constructor; auto.
      * apply resolved_Some in Hp as (d & Hin & Hid & _).
        pose proof (proj1 (List.Forall_forall _ _) Hwf d Hin) as Hc.
        simpl in Hc. rewrite Hid in Hc. exact Hc.
      * exists y. exact Hy.
  - intros l1 bad l2 d Hitems Hl1 Hd Hparse Hne.
    assert (Hids : valid_ids (items payload) <> []).
    { apply (valid_ids_parsed _ bad (_id d)); [|exact Hparse].
      rewrite Hitems. apply in_or_app. right. left. reflexivity. }
    assert (Hnone : resolved st (items payload) !! product_id bad = None).
    { destruct (resolved st (items payload) !! product_id bad) as [p|] eqn:E;
        [|reflexivity].
      apply resolved_Some in E as (d' & Hin' & Hid' & _).
      pose proof (proj1 (List.Forall_forall _ _) Hwf d' Hin') as Hc.
      simpl in Hc. unfold canonical in Hc. rewrite Hid' in Hc.
      rewrite Hparse in Hc. inversion Hc. congruence. }
    rewrite checkout_some by exact Hids.
    rewrite Hitems at 2.
    rewrite (accumulate_not_found _ l1 bad l2 0%float Hl1 Hnone).
    reflexivity.
Qed.

Lemma store_ids_wf_st_AB : store_ids_wf Examples.st_AB.
Proof. repeat constructor. Qed.

Lemma checkout_requires_canonical_ids_witness :
  bson.ObjectId_of "64B000000000000000000A01" = Some Examples.idA
  /\ checkout
       (Examples.request [Examples.item Examples.idB 1;
                          Examples.item "64B000000000000000000A01" 1])
       (Some Examples.st_AB)
     = (inl (HTTPException 400 "Product not found: 64B000000000000000000A01"),
        Some Examples.st_AB).
Proof.
  split; [reflexivity|].
  apply (proj2 (checkout_requires_canonical_ids Examples.st_AB
                  (Examples.request
                     [Examples.item Examples.idB 1;
                      Examples.item "64B000000000000000000A01" 1])
                  store_ids_wf_st_AB)
           [Examples.item Examples.idB 1]
           (Examples.item "64B000000000000000000A01" 1)
           []
           (Examples.doc Examples.idA "Backpack" (Some 10%float))).
  - reflexivity.
  - constructor; [|constructor].
    split; [exists 20%float|exists 1%float]; vm_compute; reflexivity.
  - left. reflexivity.
  - reflexivity.
  - discriminate.
Defined.

(** Without a configured database a request with a valid identifier
    raises TypeError from the subscript on [None], not an HTTP error. *)
Theorem checkout_without_database (payload : CheckoutRequest) :
  valid_ids (items payload) <> [] ->
  checkout payload None = (inl TypeError, None).
Proof.
  intros H. unfold checkout.
  destruct (valid_ids (items payload)); [congruence|]. reflexivity.
Qed.

Lemma checkout_without_database_witness :
  checkout (Examples.request [Examples.item Examples.idA 1]) None
  = (inl TypeError, None).
Proof.
  apply (checkout_without_database
           (Examples.request [Examples.item Examples.idA 1])).
  vm_compute. discriminate.
Defined.

(** ** checkout: what it leaves alone *)

(** Whatever the request and the outcome, checkout leaves the product
    collection as it was, and every order already stored stays in place:
    the order collection afterwards is the one before, followed by at most
    one new order. *)
Theorem checkout_preserves_store (payload : CheckoutRequest) (st : Store) :
  exists st' new,
    snd (checkout payload (Some st)) = Some st'
    /\ product st' = product st
    /\ order st' = order st ++ new
    /\ (length new <= 1)%nat.
Proof.
  destruct (valid_ids (items payload)) as [|i0 ids] eqn:E.
  - exists st, []. unfold checkout. rewrite E. simpl.
    rewrite app_nil_r. auto.
  - rewrite checkout_some by (rewrite E; discriminate).
    destruct (accumulate _ _ _) as [e|raw].
    + exists st, []. simpl. rewrite app_nil_r. auto.
    + eexists _, [_]. simpl. auto.
Qed.

(** ** checkout: what it reads *)

Lemma price_fold_view ds : forall m : gmap string float,
  fold_left (fun m d => <[bson.str (_id d) := price_of d]> m) ds m
  = fold_left
      (fun m (v : string * option float) =>
         <[fst v := match snd v with Some x => x | None => 0%float end]> m)
      (map price_view ds) m.
Proof.
  induction ds as [|d ds IH]; intros m; simpl; [reflexivity|]. apply IH.
Qed.

Lemma filter_view (g : string -> bool) ds :
  map price_view (List.filter (fun p => g (_id p)) ds)
  = List.filter (fun v => g (fst v)) (map price_view ds).
Proof.
  induction ds as [|d ds IH]; simpl; [reflexivity|].
  destruct (g (_id d)); simpl; rewrite IH; reflexivity.
Qed.

Lemma resolved_view st1 st2 l :
  map price_view (product st1) = map price_view (product st2) ->
  resolved st1 l = resolved st2 l.
Proof.
  intros H. unfold resolved, price_map_of. rewrite !price_fold_view.
  rewrite !(filter_view (fun k => existsb (String.eqb k) (valid_ids l))).
  rewrite H. reflexivity.
Qed.

(** Checkout reads nothing of a product but its identifier and its price:
    against two stores whose products agree on these, in order, and that
    hand out the same next identifier, a request has the same outcome and
    persists the same order. Titles, categories and the in_stock flag play
    no part: a product that is out of stock is sold like any other. *)
Theorem checkout_reads_only_prices (payload : CheckoutRequest)
    (st1 st2 : Store) :
  map price_view (product st1) = map price_view (product st2) ->
  next_id st1 = next_id st2 ->
  fst (checkout payload (Some st1)) = fst (checkout payload (Some st2))
  /\ exists st1' st2' new,
       snd (checkout payload (Some st1)) = Some st1'
       /\ snd (checkout payload (Some st2)) = Some st2'
       /\ order st1' = order st1 ++ new
       /\ order st2' = order st2 ++ new.
Proof.
  intros Hv Hn.
  destruct (valid_ids (items payload)) as [|i0 ids] eqn:E.
  - unfold checkout. rewrite E. simpl. split; [reflexivity|].
    exists st1, st2, []. rewrite !app_nil_r. auto.
  - rewrite !checkout_some by (rewrite E; discriminate).
    rewrite (resolved_view st1 st2 _ Hv), Hn.
    destruct (accumulate _ _ _) as [e|raw]; simpl.
    + split; [reflexivity|]. exists st1, st2, []. rewrite !app_nil_r. auto.
    + split; [reflexivity|]. eexists _, _, [_]. simpl. auto.
Qed.

Lemma checkout_reads_only_prices_witness :
  fst (checkout (Examples.request [Examples.item Examples.idA 2])
         (Some Examples.st_AB))
  = fst (checkout (Examples.request [Examples.item Examples.idA 2])
           (Some MoreExamples.st_AB_out_of_stock))
  /\ exists st1' st2' new,
       snd (checkout (Examples.request [Examples.item Examples.idA 2])
              (Some Examples.st_AB)) = Some st1'
       /\ snd (checkout (Examples.request [Examples.item Examples.idA 2])
                 (Some MoreExamples.st_AB_out_of_stock)) = Some st2'
       /\ order st1' = order Examples.st_AB ++ new
       /\ order st2' = order MoreExamples.st_AB_out_of_stock ++ new.
Proof.
  apply (checkout_reads_only_prices
           (Examples.request [Examples.item Examples.idA 2])
           Examples.st_AB MoreExamples.st_AB_out_of_stock);
    reflexivity.
Defined.

(** ** list_products: rendering *)

Lemma build_out_inr docs : forall out,
  build_out docs = inr out -> Forall2 renders docs out.
Proof.
  induction docs as [|d docs IH]; intros out H; simpl in H.
  - inversion H. constructor.
  - unfold ProductOut_of in H.
    destruct (get_title d) as [t|] eqn:Ht; [|discriminate].
    destruct (get_category d) as [c|] eqn:Hc; [|discriminate].
    destruct (build_out docs) as [e|o'] eqn:Hb; [discriminate|].
    inversion H; subst. constructor; [|apply IH; reflexivity].
    unfold renders, price_of. simpl. repeat split; assumption.
Qed.

(** The rendering loop succeeds exactly when every document has a title
    and a category, and then returns one record per document, in the same
    order, each carrying the document's fields with the defaults for the
    absent ones. *)
Theorem build_out_iff (docs : list ProductDoc) (out : list ProductOut) :
  build_out docs = inr out <-> Forall2 renders docs out.
Proof.
  split; [apply build_out_inr|].
  - intros HF. induction HF as [|d o docs out Hr HF IH]; [reflexivity|].
    destruct Hr as (Hid & Ht & Hd & Hp & Hc & Hi & Hs).
    simpl. unfold ProductOut_of. rewrite Ht, Hc, IH.
    do 2 f_equal. destruct o as [oid ot od op oc oi os]. simpl in *.
    unfold bson.str, price_of. subst.
    destruct (get_price d); reflexivity.
Qed.

Lemma build_out_error docs e : build_out docs = inl e -> e = ValidationError.
Proof.
  induction docs as [|d docs IH]; simpl; [discriminate|].
  unfold ProductOut_of.
  destruct (get_title d); [|intros H; inversion H; reflexivity].
  destruct (get_category d); [|intros H; inversion H; reflexivity].
  destruct (build_out docs); [|discriminate].
  intros H; inversion H; subst. apply IH. reflexivity.
Qed.

Lemma build_out_unrenderable docs :
  Exists unrenderable docs -> build_out docs = inl ValidationError.
Proof.
  intros H. destruct (build_out docs) as [e|out] eqn:Hb.
  - f_equal. eapply build_out_error. exact Hb.
  - exfalso. apply build_out_inr in Hb.
    induction Hb as [|d o docs out Hr HF IH]; inversion H; subst.
    + destruct Hr as (_ & Ht & _ & _ & Hc & _).
      destruct H1 as [H1|H1]; congruence.
    + auto.
Qed.

(** One selected product stored without a title or without a category
    fails the whole query with a validation error: no partial list is
    returned. *)
Theorem list_products_unrenderable
    (regex : string -> string -> exn + (string -> bool)) (st : Store)
    (category q : option string) (limit : option Z) (m : string -> bool) :
  (forall p, truthy q = Some p -> regex p "i" = inr m) ->
  Exists unrenderable
    (take (Z.to_nat (default 50 limit))
       (List.filter (selects category q m) (product st))) ->
  list_products regex category q limit (Some st)
  = (inl ValidationError, Some st).
Proof.
  intros Hre Hbad. apply build_out_unrenderable in Hbad.
  unfold list_products, bind, get_documents, lift.
  cbn [filt_title filt_category]. change default_limit with 50.
  assert (Hsel : List.filter
            (doc_matches (truthy category)
               (match truthy q with Some _ => Some m | None => None end))
            (product st)
          = List.filter (selects category q m) (product st)).
  { apply filter_ext. intros d. apply doc_matches_selects. }
  destruct (truthy q) as [p|] eqn:Hq.
  - rewrite (Hre p eq_refl). rewrite Hsel, Hbad. reflexivity.
  - rewrite Hsel, Hbad. reflexivity.
Qed.

Lemma list_products_unrenderable_witness :
  list_products regex.fragment None (Some "bag") None
    (Some MoreExamples.st_AB_out_of_stock)
  = (inl ValidationError, Some MoreExamples.st_AB_out_of_stock).
Proof.
  apply (list_products_unrenderable regex.fragment
           MoreExamples.st_AB_out_of_stock None (Some "bag") None
           (regex.search true [regex.Lit "b"; regex.Lit "a"; regex.Lit "g"])).
  - intros p H. inversion H; subst. reflexivity.
  - apply Exists_cons_hd. right. reflexivity.
Defined.

(** An empty [category] or [q] is no filter at all: the query is the one
    with the parameter omitted, and without a [q] the regular-expression
    engine is not consulted. *)
Theorem list_products_empty_filter
    (regex regex' : string -> string -> exn + (string -> bool))
    (limit : option Z) (db : option Store) :
  list_products regex (Some "") (Some "") limit db
  = list_products regex' None None limit db
  /\ (forall category,
        list_products regex category (Some "") limit db
        = list_products regex' category None limit db)
  /\ (forall q,
        list_products regex (Some "") q limit db
        = list_products regex None q limit db).
Proof. split; [|split; [intros category|intros q]]; reflexivity. Qed.

(** ** seed_products: outcome *)

(** The seed handler answers for no handle: with a configured database
    the test [if db] raises NotImplementedError, and without one the count
    is taken as 0 and the insert then raises TypeError on [None]. Either
    way nothing is inserted. *)
Theorem seed_products_outcome (db : option Store) :
  seed_products db
  = (inl (match db with
          | Some _ => NotImplementedError
          | None => TypeError
          end), db).
Proof. destruct db as [st|]; reflexivity. Qed.

(** ** test_database *)

(** The fields database_url and database_name of the diagnostic report
    depend on the environment only: each says whether its variable is set
    to a non-empty value. What the handler wrote there from the database
    handle, its name included, is overwritten before the report is
    returned. *)
Theorem test_database_env_fields (db : option Database)
    (getenv : string -> option string) :
  database_url (test_database db getenv)
  = Some (if env_set getenv "DATABASE_URL" then "✅ Set" else "❌ Not Set")
  /\ database_name (test_database db getenv)
     = Some (if env_set getenv "DATABASE_NAME" then "✅ Set"
             else "❌ Not Set")
  /\ backend (test_database db getenv) = "✅ Running".
Proof.
  unfold test_database.
  destruct db as [d|]; [destruct (list_collection_names d)|];
    repeat split; reflexivity.
Qed.

(** The report lists at most ten collections, the first ten that the
    database names; it lists none when there is no database or the listing
    raises. It says "Connected" exactly when a database handle exists, and
    the initial "Not Available" is never what it returns. *)
Theorem test_database_report (db : option Database)
    (getenv : string -> option string) :
  (length (collections (test_database db getenv)) <= 10)%nat
  /\ (connection_status (test_database db getenv) = "Connected"
      <-> db <> None)
  /\ database (test_database db getenv) <> "❌ Not Available"
  /\ collections (test_database db getenv)
     = match db with
       | Some d =>
           match list_collection_names d with
           | inr names => take 10 names
           | inl _ => []
           end
       | None => []
       end.
Proof.
  unfold test_database.
  destruct db as [d|]; [destruct (list_collection_names d) as [msg|names]|];
    cbn [collections connection_status database set_database
         set_database_url set_database_name set_connection_status
         set_collections].
  - split; [simpl; lia|]. split; [split; [discriminate|reflexivity]|].
    split; [|reflexivity]. intros H. inversion H.
  - split; [rewrite length_take; lia|].
    split; [split; [discriminate|reflexivity]|].
    split; [discriminate|reflexivity].
  - split; [simpl; lia|]. split; [split; [discriminate|congruence]|].
    split; [discriminate|reflexivity].
Qed.

(** ** checkout: the two HTTP errors *)


